(** * OnlyCat API client: event dispatch, connection lifecycle, calls

    A shallow embedding of [custom_components/onlycat/api.py].  The client
    wraps a socket.io [AsyncClient] (the Transport Adapter), keeps a
    [defaultdict(list)] of event listeners and forwards every inbound event
    to them.  The transport library and the registered callbacks are code
    outside the module: the first is an interface ([AsyncClient] below), the
    second a table of behaviours ([external]).  Coroutines are run as one
    cooperative task: every [await] is a call that returns or raises. *)

From stdpp Require Import gmap strings list fin_maps.

Open Scope string_scope.
Open Scope list_scope.
Set Warnings "-register-all".

(** ** Python exceptions *)

(** The classes the module defines (api.py lines 21-34), the built-in ones
    its control flow depends on, and classes defined elsewhere ([Foreign],
    with the class they derive from). *)
Inductive pyclass : Type :=
  | BaseException
  | Exception
  | TypeError
  | OnlyCatApiClientError
  | OnlyCatApiClientCommunicationError
  | OnlyCatApiClientAuthenticationError
  | Foreign (name : string) (base : pyclass).

Global Instance pyclass_eq_dec : EqDecision pyclass.
Proof. solve_decision. Defined.

(** Method resolution order (single inheritance): the class, then its
    ancestors. *)
Fixpoint mro (c : pyclass) : list pyclass :=
  match c with
  | BaseException => [BaseException]
  | Exception => [Exception; BaseException]
  | TypeError => [TypeError; Exception; BaseException]
  | OnlyCatApiClientError =>
      [OnlyCatApiClientError; Exception; BaseException]
  | OnlyCatApiClientCommunicationError =>
      [OnlyCatApiClientCommunicationError; OnlyCatApiClientError;
       Exception; BaseException]
  | OnlyCatApiClientAuthenticationError =>
      [OnlyCatApiClientAuthenticationError; OnlyCatApiClientError;
       Exception; BaseException]
  | Foreign name base => Foreign name base :: mro base
  end.

Definition issubclass (c d : pyclass) : bool := bool_decide (d ∈ mro c).

Record exception : Type := Raise { exc_class : pyclass; exc_message : string }.

Definition isinstance (e : exception) (c : pyclass) : bool :=
  issubclass (exc_class e) c.

(** Result of awaiting a coroutine. *)
Inductive outcome (A : Type) : Type :=
  | Returned (a : A)
  | Raised (e : exception).
Arguments Returned {A} a.
Arguments Raised {A} e.

(** ** Payloads and log records *)

(** Payloads carry no schema: JSON-like Python values. *)
Inductive value : Type :=
  | VNone
  | VBool (b : bool)
  | VInt (n : Z)
  | VStr (s : string)
  | VList (l : list value)
  | VDict (d : list (string * value)).

Inductive level : Type := DEBUG | ERROR.

(** A call on the module logger: format string and arguments are kept
    apart, as [logging] does; [_LOGGER.exception] attaches the exception
    being handled. *)
Record log_record : Type := LogRecord {
  log_level : level;
  log_msg : string;
  log_args : list value;
  log_exc_info : option exception
}.

(** ** Callbacks *)

(** A registered listener is a reference to a callable: the client's own
    bound method [self.on_connected], or a callable supplied by the host,
    named by an identifier. *)
Inductive callback : Type :=
  | on_connected_method
  | External (id : nat).

Global Instance callback_eq_dec : EqDecision callback.
Proof. solve_decision. Defined.

(** ** The Transport Adapter *)

Definition ONLYCAT_URL : string := "https://gateway.onlycat.com".

(** Keyword arguments of [socketio.AsyncClient(...)] (lines 52-59); the
    delays are in seconds. *)
Record client_options (Session : Type) : Type := ClientOptions {
  http_session : Session;
  reconnection : bool;
  reconnection_attempts : nat;
  reconnection_delay : nat;
  reconnection_delay_max : nat;
  ssl_verify : bool
}.
Arguments ClientOptions {Session}.

(** Arguments of [AsyncClient.connect] (lines 69-75). *)
Record connect_request : Type := ConnectRequest {
  url : string;
  transports : list string;
  namespaces : string;
  headers : list (string * string);
  auth : list (string * string)
}.

(** What the client consumes of [socketio.AsyncClient]: a state type and
    the operations the module calls on it.  Each awaited operation returns
    or raises, and leaves the transport in a new state. *)
Class AsyncClient (Session Socket : Type) : Type := {
  socket_new : client_options Session -> Socket;
  connected : Socket -> bool;
  socket_on : string -> Socket -> Socket;
  socket_connect : connect_request -> Socket -> outcome unit * Socket;
  socket_disconnect : Socket -> outcome unit * Socket;
  socket_shutdown : Socket -> outcome unit * Socket;
  socket_call : string -> value -> Socket -> outcome value * Socket;
  socket_wait : Socket -> outcome unit * Socket
}.

(** What a coroutine of the client does that the outside can see, in
    order. *)
Inductive action : Type :=
  | Log (r : log_record)
  | SocketOn (event : string)
  | SocketConnect (r : connect_request)
  | SocketDisconnect
  | SocketShutdown
  | SocketCall (event : string) (data : value)
  | SocketWait
  | Await (cb : callback) (args : list value).

Definition is_handshake (a : action) : bool :=
  match a with SocketConnect _ => true | _ => false end.

Definition awaited (a : action) : option (callback * list value) :=
  match a with Await cb args => Some (cb, args) | _ => None end.

(** The callbacks awaited in a trace, with their arguments, in order. *)
Definition invocations (t : list action) : list (callback * list value) :=
  omap awaited t.

Definition handshakes (t : list action) : nat :=
  length (filter (fun a => is_handshake a = true) t).

Section Client.

Context {Session Data Socket : Type} `{!AsyncClient Session Socket}.

(** ** The client object *)

Record OnlyCatApiClient : Type := Client {
  _token : string;
  _data : option Data;
  _session : Session;
  _listeners : gmap string (list callback);
  _socket : Socket
}.

Definition with_listeners (d : gmap string (list callback))
    (self : OnlyCatApiClient) : OnlyCatApiClient :=
  Client (_token self) (_data self) (_session self) d (_socket self).

Definition with_socket (s : Socket) (self : OnlyCatApiClient)
    : OnlyCatApiClient :=
  Client (_token self) (_data self) (_session self) (_listeners self) s.

(** [d[k]] on a [defaultdict(list)]: a missing key is bound to a new
    empty list, which is the value read. *)
Definition defaultdict_getitem (k : string)
    (d : gmap string (list callback))
    : list callback * gmap string (list callback) :=
  match d !! k with
  | Some l => (l, d)
  | None => ([], <[k := []]> d)
  end.

(** The handlers an event has: an absent key reads as no handler. *)
Definition listeners_of (self : OnlyCatApiClient) (event : string)
    : list callback :=
  default [] (_listeners self !! event).

(** The host's callables.  A callable runs to completion when awaited; it
    can reach the client it is registered on, so it maps the client's
    state to a new one and returns or raises. *)
Variable external :
  nat -> list value -> OnlyCatApiClient -> outcome unit * OnlyCatApiClient.

(** ** Coroutines

    A coroutine of the client reads and updates [self], returns or
    raises, and leaves a trace.  [None] is a coroutine that has not
    finished within the loop iterations it was given. *)
Definition M (A : Type) : Type :=
  OnlyCatApiClient -> option (outcome A * OnlyCatApiClient * list action).

Definition ret {A : Type} (a : A) : M A :=
  fun self => Some (Returned a, self, []).

Definition raise {A : Type} (e : exception) : M A :=
  fun self => Some (Raised e, self, []).

Definition bind {A B : Type} (m : M A) (k : A -> M B) : M B :=
  fun self =>
    match m self with
    | None => None
    | Some (Raised e, self1, t1) => Some (Raised e, self1, t1)
    | Some (Returned a, self1, t1) =>
        match k a self1 with
        | None => None
        | Some (r, self2, t2) => Some (r, self2, t1 ++ t2)
        end
    end.

Notation "x <- m ;; k" := (bind m (fun x => k))
  (at level 100, m at next level, right associativity).
Notation "m ;; k" := (bind m (fun _ => k))
  (at level 100, right associativity).

(** [try: body / except Exception: handler]: an exception that is not an
    instance of [Exception] passes through. *)
Definition try_except_Exception {A : Type} (body : M A)
    (handler : exception -> M A) : M A :=
  fun self =>
    match body self with
    | Some (Raised e, self1, t1) =>
        if isinstance e Exception then
          match handler e self1 with
          | None => None
          | Some (r, self2, t2) => Some (r, self2, t1 ++ t2)
          end
        else Some (Raised e, self1, t1)
    | other => other
    end.

Definition get_self : M OnlyCatApiClient :=
  fun self => Some (Returned self, self, []).

Definition act (a : action) : M unit :=
  fun self => Some (Returned tt, self, [a]).

Definition _LOGGER_debug (msg : string) (args : list value) : M unit :=
  act (Log (LogRecord DEBUG msg args None)).

Definition _LOGGER_exception (msg : string) (args : list value)
    (e : exception) : M unit :=
  act (Log (LogRecord ERROR msg args (Some e))).

(** [await self._socket.op(...)] *)
Definition await_socket {A : Type} (a : action)
    (op : Socket -> outcome A * Socket) : M A :=
  fun self =>
    let '(r, s) := op (_socket self) in Some (r, with_socket s self, [a]).

(** ** Methods *)

(** [add_event_listener] (lines 83-86) is a plain function. *)
Definition add_event_listener (event : string) (cb : callback)
    (self : OnlyCatApiClient) : OnlyCatApiClient * list action :=
  let '(l, d) := defaultdict_getitem event (_listeners self) in
  (with_listeners (<[event := l ++ [cb]]> d) self,
   [Log (LogRecord DEBUG "Added event listener for event: %s"
           [VStr event] None)]).

(** [__init__] (lines 40-61): [socket or socketio.AsyncClient(...)]. *)
Definition __init__ (token : string) (session : Session)
    (data : option Data) (socket : option Socket)
    : OnlyCatApiClient * list action :=
  let s :=
    default
      (socket_new
         {| http_session := session;
            reconnection := true;
            reconnection_attempts := 0;
            reconnection_delay := 10;
            reconnection_delay_max := 10;
            ssl_verify := true |})
      socket in
  let self := Client token data session ∅ (socket_on "*" s) in
  let '(self, t) := add_event_listener "connect" on_connected_method self in
  (self, SocketOn "*" :: t).

(** The arguments [connect] passes to the transport (lines 70-74). *)
Definition connect_kwargs (token : string) : connect_request :=
  {| url := ONLYCAT_URL;
     transports := ["websocket"];
     namespaces := "/";
     headers := [("platform", "home-assistant");
                 ("device", "onlycat-hass")];
     auth := [("token", token)] |}.

(** [connect] (lines 63-75). *)
Definition connect : M unit :=
  self <- get_self ;;
  if connected (_socket self) then ret tt
  else
    _LOGGER_debug "Connecting to API" [] ;;
    let r := connect_kwargs (_token self) in
    await_socket (SocketConnect r) (socket_connect r).

(** [disconnect] (lines 77-81). *)
Definition disconnect : M unit :=
  _LOGGER_debug "Disconnecting from API" [] ;;
  await_socket SocketDisconnect socket_disconnect ;;
  await_socket SocketShutdown socket_shutdown.

(** [on_connected] (lines 108-110). *)
Definition on_connected : M unit :=
  _LOGGER_debug "(Re)connected to API" [].

(** [await callback( *args)]: the bound method [self.on_connected] takes no
    argument, and calling it with one is a [TypeError]. *)
Definition await_callback (cb : callback) (args : list value) : M unit :=
  match cb with
  | on_connected_method =>
      act (Await cb args) ;;
      match args with
      | [] => on_connected
      | _ :: _ =>
          raise (Raise TypeError
                   "on_connected() takes 1 positional argument")
      end
  | External id =>
      fun self =>
        let '(r, self1) := external id args self in
        Some (r, self1, [Await cb args])
  end.

(** The body of the loop of [handle_event] (lines 92-97): the callback
    is awaited under [try], and an [Exception] it raises is logged. *)
Definition guarded (event : string) (args : list value) (cb : callback)
    : M unit :=
  try_except_Exception (await_callback cb args)
    (fun e =>
       _LOGGER_exception "Error while handling event %s with args %s"
         [VStr event; VList args] e).

(** The loop of [handle_event] (lines 91-97).  Python iterates over the
    list object by index and reads it again at every step, so a handler
    appended while the loop runs is reached by the same loop: position
    [i] is looked up in the client's current state. *)
Fixpoint for_callback_in_listeners (fuel : nat) (event : string)
    (args : list value) (i : nat) : M unit :=
  match fuel with
  | O => fun _ => None
  | S fuel' =>
      self <- get_self ;;
      match listeners_of self event !! i with
      | None => ret tt
      | Some cb =>
          guarded event args cb ;;
          for_callback_in_listeners fuel' event args (S i)
      end
  end.

(** [self._listeners[event]] as an expression of its own. *)
Definition listeners_getitem (event : string) : M (list callback) :=
  fun self =>
    let '(l, d) := defaultdict_getitem event (_listeners self) in
    Some (Returned l, with_listeners d self, []).

(** [handle_event] (lines 88-97). *)
Definition handle_event (fuel : nat) (event : string) (args : list value)
    : M unit :=
  _LOGGER_debug "Received event: %s with args: %s"
    [VStr event; VList args] ;;
  listeners_getitem event ;;
  for_callback_in_listeners fuel event args 0.

(** [send_message] (lines 99-102). *)
Definition send_message (event : string) (data : value) : M value :=
  _LOGGER_debug "Sending %s message to API: %s" [VStr event; data] ;;
  await_socket (SocketCall event data) (socket_call event data).


(** ** Reference points for the proofs *)

(** The client once [self._listeners[event]] has been evaluated. *)
Definition after_getitem (event : string) (self : OnlyCatApiClient)
    : OnlyCatApiClient :=
  with_listeners (snd (defaultdict_getitem event (_listeners self))) self.

(** The records the module writes in [handle_event]. *)
Definition received_record (event : string) (args : list value)
    : log_record :=
  LogRecord DEBUG "Received event: %s with args: %s"
    [VStr event; VList args] None.

Definition error_record (event : string) (args : list value)
    (e : exception) : log_record :=
  LogRecord ERROR "Error while handling event %s with args %s"
    [VStr event; VList args] (Some e).

(** The loop over a list that no handler touches: one guarded await per
    element. *)
Fixpoint run_callbacks (event : string) (args : list value)
    (l : list callback) : M unit :=
  match l with
  | [] => ret tt
  | cb :: l' => guarded event args cb ;; run_callbacks event args l'
  end.

(** Registrations made one after the other. *)
Definition register_all (regs : list (string * callback))
    (self : OnlyCatApiClient) : OnlyCatApiClient :=
  fold_left (fun c r => fst (add_event_listener (fst r) (snd r) c))
    regs self.

(** The handlers registered for [event] among [regs], in order. *)
Definition registered_for (event : string)
    (regs : list (string * callback)) : list callback :=
  snd <$> filter (fun r => fst r = event) regs.

(** ** Conditions on the host's callables *)

(** The callable leaves the handler list of [event] as it found it. *)
Definition keeps_listeners (event : string) (cb : callback) : Prop :=
  forall args self r self1 t,
    await_callback cb args self = Some (r, self1, t) ->
    _listeners self1 !! event = _listeners self !! event.

(** Whatever the callable raises is an instance of [Exception]. *)
Definition raises_only_Exception (cb : callback) : Prop :=
  forall args self e self1 t,
    await_callback cb args self = Some (Raised e, self1, t) ->
    isinstance e Exception = true.

(** The callable raises [e] whenever it is awaited with [args]. *)
Definition always_raises (cb : callback) (args : list value)
    (e : exception) : Prop :=
  forall self, exists self1 t,
    await_callback cb args self = Some (Raised e, self1, t).

(** The callable adds to the handler list of [event] at most: what was
    registered stays where it was. *)
Definition appends_only (event : string) (cb : callback) : Prop :=
  forall args self r self1 t,
    await_callback cb args self = Some (r, self1, t) ->
    listeners_of self event `prefix_of` listeners_of self1 event.

(** The callable returns whenever it is awaited with [args]. *)
Definition always_returns (cb : callback) (args : list value) : Prop :=
  forall self, exists self1 t,
    await_callback cb args self = Some (Returned tt, self1, t).

(** [self1] is [self] but for the state of its transport. *)
Definition same_but_socket (self self1 : OnlyCatApiClient) : Prop :=
  self1 = with_socket (_socket self1) self.

End Client.

(** An operation of the transport, as opposed to a log record or an awaited
    callback. *)
Definition is_socket_action (a : action) : bool :=
  match a with
  | Log _ | Await _ _ => false
  | _ => true
  end.

Notation "x <- m ;; k" := (bind m (fun x => k))
  (at level 100, m at next level, right associativity).
Notation "m ;; k" := (bind m (fun _ => k))
  (at level 100, right associativity).

(** ** A scripted transport and sample callables

    The constructor takes the transport as an argument ([socket]); a test
    passes one whose answers are fixed in advance.  The answers are part of
    the mock's state. *)
Module Mock.

Record socket : Type := Socket {
  is_connected : bool;
  hooks : list string;
  connect_answer : outcome unit;
  disconnect_answer : outcome unit;
  shutdown_answer : outcome unit;
  call_answer : outcome value
}.

Definition set_connected (b : bool) (s : socket) : socket :=
  Socket b (hooks s) (connect_answer s) (disconnect_answer s)
    (shutdown_answer s) (call_answer s).

Definition answer {A : Type} (r : outcome A) (b : bool) (s : socket)
    : outcome A * socket :=
  match r with
  | Returned a => (Returned a, set_connected b s)
  | Raised e => (Raised e, s)
  end.

(** What socket.io raises: on a failed handshake, and on an emit to a
    namespace that is not connected. *)
Definition ConnectionError : exception :=
  Raise (Foreign "socketio.exceptions.ConnectionError"
           (Foreign "socketio.exceptions.SocketIOError" Exception))
    "Connection error".

Definition BadNamespaceError : exception :=
  Raise (Foreign "socketio.exceptions.BadNamespaceError"
           (Foreign "socketio.exceptions.SocketIOError" Exception))
    "/ is not a connected namespace.".

(** An idle transport on which every operation succeeds. *)
Definition idle : socket :=
  Socket false [] (Returned tt) (Returned tt) (Returned tt) (Returned VNone).

#[global] Instance mock_client : AsyncClient unit socket := {
  socket_new := fun _ => idle;
  connected := is_connected;
  socket_on := fun event s =>
    Socket (is_connected s) (hooks s ++ [event]) (connect_answer s)
      (disconnect_answer s) (shutdown_answer s) (call_answer s);
  socket_connect := fun _ s => answer (connect_answer s) true s;
  socket_disconnect := fun s => answer (disconnect_answer s) false s;
  socket_shutdown := fun s => answer (shutdown_answer s) false s;
  socket_call := fun _ _ s =>
    if is_connected s then (call_answer s, s)
    else (Raised BadNamespaceError, s);
  socket_wait := fun s => (Returned tt, set_connected false s)
}.

Definition client : Type := @OnlyCatApiClient unit unit socket.

Definition ValueError : exception :=
  Raise (Foreign "ValueError" Exception) "synthetic".

Definition CancelledError : exception :=
  Raise (Foreign "asyncio.CancelledError" BaseException) "".

(** Callable 0 returns, 1 raises [ValueError], 2 raises [CancelledError];
    any other registers callable 0 for "ping" on the client and returns. *)
Definition callables (id : nat) (args : list value) (self : client)
    : outcome unit * client :=
  match id with
  | 0 => (Returned tt, self)
  | 1 => (Raised ValueError, self)
  | 2 => (Raised CancelledError, self)
  | _ => (Returned tt, fst (add_event_listener "ping" (External 0) self))
  end.

(** A transport that rejects the handshake. *)
Definition unreachable : socket :=
  Socket false [] (Raised ConnectionError) (Returned tt) (Returned tt)
    (Raised BadNamespaceError).

(** A transport that refuses to close a connection it does not have. *)
Definition strict : socket :=
  Socket false [] (Returned tt)
    (Raised (Raise (Foreign "RuntimeError" Exception) "already closed"))
    (Returned tt) (Raised BadNamespaceError).

(** A connected transport whose next call is answered with [reply]. *)
Definition replying (reply : value) : socket :=
  Socket true [] (Returned tt) (Returned tt) (Returned tt) (Returned reply).

Definition new_client (s : socket) : client :=
  fst (__init__ "token" tt None (Some s)).

(** H1 raises a synthetic error, H2 returns: both listen to "ping". *)
Definition ping_client : client :=
  register_all [("ping", External 1); ("ping", External 0)]
    (new_client idle).

(** The first "ping" listener is cancelled while it runs. *)
Definition cancelled_client : client :=
  register_all [("ping", External 2); ("ping", External 0)]
    (new_client idle).

(** Callable 3 listens to "ping" and registers callable 0 for it. *)
Definition growing_client : client :=
  register_all [("ping", External 3)] (new_client idle).

(** The state and the trace a finished coroutine leaves. *)
Definition state_after {A : Type}
    (r : option (outcome A * client * list action)) (self : client)
    : client :=
  match r with
  | Some (_, self1, _) => self1
  | None => self
  end.

Definition trace_after {A : Type}
    (r : option (outcome A * client * list action)) : list action :=
  match r with
  | Some (_, _, t) => t
  | None => []
  end.

End Mock.

(** * Properties *)

Section Properties.

Context {Session Data Socket : Type} `{!AsyncClient Session Socket}.

Local Abbreviation Self := (@OnlyCatApiClient Session Data Socket).

Variable external : nat -> list value -> Self -> outcome unit * Self.

Implicit Types (self : Self) (event : string) (args : list value).
Implicit Types (cb : callback) (hs : list callback) (t : list action).
Implicit Types (token : string) (session : Session).
Implicit Types (socket : option Socket).

(** ** Traces *)

Lemma invocations_app t1 t2 :
  invocations (t1 ++ t2) = invocations t1 ++ invocations t2.
Proof. apply omap_app. Qed.

Lemma handshakes_app t1 t2 :
  handshakes (t1 ++ t2) = handshakes t1 + handshakes t2.
Proof. unfold handshakes. by rewrite filter_app, length_app. Qed.

(** ** Awaiting one callback *)

Lemma await_callback_total cb args self :
  exists r self1 t,
    await_callback external cb args self = Some (r, self1, t)
    /\ invocations t = [(cb, args)].
Proof.
  destruct cb as [ | id]; simpl.
  - destruct args as [ | a args]; eauto 6.
  - destruct (external id args self) as [r self1]. eauto 6.
Qed.

Lemma on_connected_keeps_listeners event :
  keeps_listeners external event on_connected_method.
Proof.
  intros args self r self1 t. simpl.
  destruct args; cbv; intros [= _ <- _]; reflexivity.
Qed.

Lemma on_connected_raises_only_Exception :
  raises_only_Exception external on_connected_method.
Proof.
  intros args self e self1 t. simpl.
  destruct args; cbv -[isinstance]; intros [= <- _ _]; reflexivity.
Qed.

(** ** The loop body *)

Lemma guarded_inv event args cb self r self1 t :
  guarded external event args cb self = Some (r, self1, t) ->
  exists r0 t0,
    await_callback external cb args self = Some (r0, self1, t0)
    /\ invocations t = invocations t0
    /\ (forall e, r = Raised e -> r0 = Raised e
                                /\ isinstance e Exception = false).
Proof.
  unfold guarded, try_except_Exception.
  destruct (await_callback external cb args self)
    as [[[[a | e] self0] t0] | ] eqn:Hrun; [ | | discriminate].
  - intros [= <- <- <-]. exists (Returned a), t0.
    split; [done | ]. split; [done | ]. intros e [=].
  - destruct (isinstance e Exception) eqn:Hexc.
    + cbv [_LOGGER_exception act]. intros [= <- <- <-].
      exists (Raised e), t0. rewrite invocations_app, app_nil_r.
      split; [done | ]. split; [done | ]. intros e' [=].
    + intros [= <- <- <-]. exists (Raised e), t0.
      split; [done | ]. split; [done | ]. by intros e' [= <-].
Qed.

Lemma guarded_contained event args cb self :
  raises_only_Exception external cb ->
  exists self1 t,
    guarded external event args cb self = Some (Returned tt, self1, t)
    /\ invocations t = [(cb, args)].
Proof.
  intros Hexc.
  destruct (await_callback_total cb args self)
    as (r & self1 & t & Hrun & Hinv).
  unfold guarded, try_except_Exception. rewrite Hrun.
  destruct r as [[] | e].
  - eauto.
  - rewrite (Hexc _ _ _ _ _ Hrun). cbv [_LOGGER_exception act].
    eexists _, _. split; [reflexivity | ].
    by rewrite invocations_app, Hinv.
Qed.

(** ** The loop *)

Lemma bind_get_self {A : Type} (k : Self -> M A) self :
  bind get_self k self = k self self.
Proof.
  unfold bind, get_self. by destruct (k self self) as [[[r s] t] | ].
Qed.

Lemma listeners_of_eq self self1 event :
  _listeners self1 !! event = _listeners self !! event ->
  listeners_of self1 event = listeners_of self event.
Proof. unfold listeners_of. by intros ->. Qed.

(** While no handler touches the list, the indexed loop is the plain
    iteration over it. *)
Lemma for_loop_unchanged_list event args hs :
  forall pre self fuel,
    listeners_of self event = pre ++ hs ->
    Forall (keeps_listeners external event) hs ->
    length hs < fuel ->
    for_callback_in_listeners external fuel event args (length pre) self
    = run_callbacks external event args hs self.
Proof.
  induction hs as [ | cb hs IH]; intros pre self fuel Hl Hkeep Hfuel;
    (destruct fuel as [ | fuel]; [simpl in Hfuel; lia | ]);
    cbn [for_callback_in_listeners run_callbacks];
    rewrite bind_get_self; cbv beta; rewrite Hl.
  - rewrite app_nil_r, lookup_ge_None_2 by lia. done.
  - rewrite list_lookup_middle by done.
    apply Forall_cons in Hkeep as [Hcb Hkeep].
    unfold bind.
    destruct (guarded external event args cb self)
      as [[[[[] | e] self1] t1] | ] eqn:Hg; try done.
    destruct (guarded_inv _ _ _ _ _ _ _ Hg) as (r0 & t0 & Hrun & _).
    replace (S (length pre)) with (length (pre ++ [cb]))
      by (rewrite length_app; simpl; lia).
    rewrite (IH (pre ++ [cb]) self1 fuel); [done | | done | ].
    + rewrite (listeners_of_eq self self1) by eauto.
      by rewrite Hl, <- app_assoc.
    + simpl in Hfuel. lia.
Qed.

(** A loop that has finished finishes the same way with more fuel. *)
Lemma for_loop_more_fuel fuel :
  forall fuel' event args i self x,
    for_callback_in_listeners external fuel event args i self = Some x ->
    fuel <= fuel' ->
    for_callback_in_listeners external fuel' event args i self = Some x.
Proof.
  induction fuel as [ | fuel IH]; intros fuel' event args i self x Hrun Hle;
    [discriminate Hrun | ].
  destruct fuel' as [ | fuel']; [lia | ].
  cbn [for_callback_in_listeners] in *.
  rewrite bind_get_self in *. cbv beta in *.
  destruct (listeners_of self event !! i) as [cb | ]; [ | done].
  unfold bind in *.
  destruct (guarded external event args cb self)
    as [[[[[] | e] self1] t1] | ]; try done.
  destruct (for_callback_in_listeners external fuel event args (S i) self1)
    as [y | ] eqn:Hrest; [ | done].
  rewrite (IH fuel' event args (S i) self1 y Hrest); [done | lia].
Qed.

(** Handlers that keep the list and raise nothing but [Exception]s are
    all awaited, each with [args]; an [Exception] raised by one that
    always raises it is on the log. *)
Lemma run_callbacks_contained event args hs :
  forall self,
    Forall (keeps_listeners external event) hs ->
    Forall (raises_only_Exception external) hs ->
    exists self1 t,
      run_callbacks external event args hs self
      = Some (Returned tt, self1, t)
      /\ invocations t = (fun cb => (cb, args)) <$> hs
      /\ _listeners self1 !! event = _listeners self !! event
      /\ (forall cb e,
            cb ∈ hs -> always_raises external cb args e ->
            Log (error_record event args e) ∈ t).
Proof.
  induction hs as [ | cb hs IH]; intros self Hkeep Hexc.
  - exists self, []. repeat split; try done. intros cb e Hin.
    by apply elem_of_nil in Hin.
  - apply Forall_cons in Hkeep as [Hkcb Hkeep].
    apply Forall_cons in Hexc as [Hecb Hexc].
    destruct (guarded_contained event args cb self Hecb)
      as (self1 & t1 & Hg & Hinv1).
    destruct (guarded_inv _ _ _ _ _ _ _ Hg) as (r0 & t0 & Hrun & _).
    destruct (IH self1 Hkeep Hexc) as (self2 & t2 & Hrest & Hinv2 & Hl & Hlog).
    exists self2, (t1 ++ t2). cbn [run_callbacks]. unfold bind.
    rewrite Hg, Hrest. split; [done | ].
    split; [by rewrite invocations_app, Hinv1, Hinv2 | ].
    split; [rewrite Hl; eauto | ].
    intros cb' e Hin Hraise. apply elem_of_app.
    apply elem_of_cons in Hin as [-> | Hin]; [left | right; eauto].
    destruct (Hraise self) as (self' & t' & Hrun').
    unfold guarded, try_except_Exception in Hg.
    rewrite Hrun', (Hecb _ _ _ _ _ Hrun') in Hg.
    cbv [_LOGGER_exception act] in Hg. injection Hg as _ <-.
    apply elem_of_app. right. apply list_elem_of_singleton. done.
Qed.

(** ** [handle_event] *)

Lemma listeners_after_getitem event self :
  _listeners (after_getitem event self)
  = <[event := listeners_of self event]> (_listeners self).
Proof.
  unfold after_getitem, defaultdict_getitem, listeners_of.
  destruct (_listeners self !! event) as [l | ] eqn:Hl; simpl.
  - by rewrite insert_id.
  - done.
Qed.

Lemma listeners_of_after_getitem event self ev :
  listeners_of (after_getitem event self) ev = listeners_of self ev.
Proof.
  unfold listeners_of at 1. rewrite listeners_after_getitem.
  destruct (decide (event = ev)) as [-> | Hne].
  - by rewrite lookup_insert_eq.
  - by rewrite lookup_insert_ne.
Qed.

Lemma handle_event_unfold fuel event args self :
  handle_event external fuel event args self
  = match for_callback_in_listeners external fuel event args 0
            (after_getitem event self) with
    | None => None
    | Some (r, self1, t) =>
        Some (r, self1, Log (received_record event args) :: t)
    end.
Proof.
  unfold handle_event, bind, _LOGGER_debug, act, listeners_getitem,
    after_getitem.
  destruct (defaultdict_getitem event (_listeners self)) as [l d].
  simpl.
  by destruct (for_callback_in_listeners _ _ _ _ _ _)
    as [[[r self1] t] | ].
Qed.

Lemma handle_event_more_fuel fuel fuel' event args self x :
  handle_event external fuel event args self = Some x ->
  fuel <= fuel' ->
  handle_event external fuel' event args self = Some x.
Proof.
  rewrite !handle_event_unfold. intros Hrun Hle.
  destruct (for_callback_in_listeners external fuel event args 0
              (after_getitem event self)) as [y | ] eqn:Hloop; [ | done].
  by rewrite (for_loop_more_fuel _ _ _ _ _ _ _ Hloop Hle).
Qed.

Lemma handle_event_contained fuel event args self :
  Forall (keeps_listeners external event) (listeners_of self event) ->
  Forall (raises_only_Exception external) (listeners_of self event) ->
  length (listeners_of self event) < fuel ->
  exists self1 t,
    handle_event external fuel event args self
    = Some (Returned tt, self1, Log (received_record event args) :: t)
    /\ invocations t = (fun cb => (cb, args)) <$> listeners_of self event
    /\ listeners_of self1 event = listeners_of self event
    /\ (forall cb e,
          cb ∈ listeners_of self event ->
          always_raises external cb args e ->
          Log (error_record event args e) ∈ t).
Proof.
  intros Hkeep Hexc Hfuel.
  destruct (run_callbacks_contained event args (listeners_of self event)
              (after_getitem event self) Hkeep Hexc)
    as (self1 & t & Hrun & Hinv & Hl & Hlog).
  exists self1, t. rewrite handle_event_unfold.
  pose proof (for_loop_unchanged_list event args (listeners_of self event)
                [] (after_getitem event self) fuel) as Hloop.
  simpl in Hloop. rewrite Hloop, Hrun; try done.
  - repeat split; try done.
    by rewrite (listeners_of_eq _ _ _ Hl), listeners_of_after_getitem.
  - by rewrite listeners_of_after_getitem.
Qed.

(** ** The registry *)

Lemma listeners_add_event_listener event cb self :
  _listeners (fst (add_event_listener event cb self))
  = <[event := listeners_of self event ++ [cb]]> (_listeners self).
Proof.
  unfold add_event_listener, defaultdict_getitem, listeners_of.
  destruct (_listeners self !! event) as [l | ]; simpl; [done | ].
  by rewrite insert_insert_eq.
Qed.

Lemma listeners_of_add_event_listener event cb self ev :
  listeners_of (fst (add_event_listener event cb self)) ev
  = if decide (event = ev) then listeners_of self ev ++ [cb]
    else listeners_of self ev.
Proof.
  unfold listeners_of at 1. rewrite listeners_add_event_listener.
  destruct (decide (event = ev)) as [-> | Hne].
  - by rewrite lookup_insert_eq.
  - by rewrite lookup_insert_ne.
Qed.

(** [add_event_listener] only appends. *)
Lemma listeners_of_register_all ev regs :
  forall self,
    listeners_of (register_all regs self) ev
    = listeners_of self ev ++ registered_for ev regs.
Proof.
  unfold register_all, registered_for.
  induction regs as [ | [event cb] regs IH]; intros self; simpl.
  - by rewrite app_nil_r.
  - rewrite IH, listeners_of_add_event_listener, filter_cons. simpl.
    destruct (decide (event = ev)) as [-> | Hne]; simpl.
    + by rewrite <- app_assoc.
    + done.
Qed.

Lemma listeners_init token session (data : option Data) socket :
  _listeners (fst (__init__ token session data socket))
  = {["connect" := [on_connected_method]]}.
Proof.
  unfold __init__.
  match goal with
  | |- context [add_event_listener ?ev ?cb ?c] =>
      pose proof (listeners_add_event_listener ev cb c) as Hadd;
      destruct (add_event_listener ev cb c) as [self1 t1]
  end.
  simpl in *. rewrite Hadd. unfold listeners_of. simpl.
  by rewrite lookup_empty, insert_empty.
Qed.

(** C2: an event with N registered handlers (the same handler counted as
    often as it is registered) has each of them awaited exactly once by
    one [handle_event], in the order of the event's list and with the
    arguments of the event, when the handlers leave the event's list alone
    and raise nothing outside [Exception]; the order of the list is the
    order of registration. *)
Theorem handle_event_invokes_each_handler_once fuel event args self :
  Forall (keeps_listeners external event) (listeners_of self event) ->
  Forall (raises_only_Exception external) (listeners_of self event) ->
  length (listeners_of self event) < fuel ->
  (exists self1 t,
     handle_event external fuel event args self
     = Some (Returned tt, self1, t)
     /\ invocations t = (fun cb => (cb, args)) <$> listeners_of self event)
  /\ (forall regs (c : Self),
        listeners_of (register_all regs c) event
        = listeners_of c event ++ registered_for event regs).
Proof.
  intros Hkeep Hexc Hfuel.
  split; [ | intros regs c; apply listeners_of_register_all].
  destruct (handle_event_contained fuel event args self Hkeep Hexc Hfuel)
    as (self1 & t & Hrun & Hinv & _).
  exists self1, (Log (received_record event args) :: t). done.
Qed.

(** C3 (as amended): when the handler at position [k] raises an
    instance of [Exception], the handlers after it are still awaited with
    the same arguments, the error is logged and [handle_event] returns to
    its caller without raising. *)
Theorem handler_Exception_is_contained fuel event args self k cb e :
  Forall (keeps_listeners external event) (listeners_of self event) ->
  Forall (raises_only_Exception external) (listeners_of self event) ->
  length (listeners_of self event) < fuel ->
  listeners_of self event !! k = Some cb ->
  always_raises external cb args e ->
  isinstance e Exception = true ->
  exists self1 t,
    handle_event external fuel event args self
    = Some (Returned tt, self1, t)
    /\ drop (S k) (invocations t)
       = (fun h => (h, args)) <$> drop (S k) (listeners_of self event)
    /\ invocations t !! k = Some (cb, args)
    /\ Log (error_record event args e) ∈ t.
Proof.
  intros Hkeep Hexc Hfuel Hk Hraise _.
  destruct (handle_event_contained fuel event args self Hkeep Hexc Hfuel)
    as (self1 & t & Hrun & Hinv & _ & Hlog).
  exists self1, (Log (received_record event args) :: t).
  change (invocations (Log (received_record event args) :: t))
    with (invocations t).
  rewrite Hinv, fmap_drop, list_lookup_fmap, Hk.
  repeat split; try done.
  apply elem_of_cons. right.
  apply (Hlog cb e); [ | done]. by apply list_elem_of_lookup_2 in Hk.
Qed.

(** C8 (as amended): for an event without handlers [handle_event]
    returns without raising, awaits no callback and touches no transport
    operation; it writes one debug record and leaves every event with the
    handlers it had, but the event is a key of the registry afterwards,
    bound to the empty list. *)
Theorem handle_event_without_listeners fuel event args self :
  listeners_of self event = [] ->
  0 < fuel ->
  let self1 := with_listeners (<[event := []]> (_listeners self)) self in
  handle_event external fuel event args self
  = Some (Returned tt, self1, [Log (received_record event args)])
  /\ (forall ev, listeners_of self1 ev = listeners_of self ev)
  /\ (forall ev, ev <> event ->
                 _listeners self1 !! ev = _listeners self !! ev)
  /\ dom (_listeners self1) = {[event]} ∪ dom (_listeners self).
Proof.
  intros Hnone Hfuel self1.
  assert (Hafter : after_getitem event self = self1).
  { unfold after_getitem, self1. f_equal.
    change (_listeners (after_getitem event self)
            = <[event := []]> (_listeners self)).
    by rewrite listeners_after_getitem, Hnone. }
  split; [ | split; [ | split]].
  - rewrite handle_event_unfold, Hafter.
    destruct fuel as [ | fuel]; [lia | ].
    cbn [for_callback_in_listeners]. rewrite bind_get_self. cbv beta.
    rewrite <- Hafter, listeners_of_after_getitem, Hnone. done.
  - intros ev. rewrite <- Hafter. apply listeners_of_after_getitem.
  - intros ev Hne. unfold self1. simpl. by rewrite lookup_insert_ne.
  - unfold self1. simpl. by rewrite dom_insert_L.
Qed.

(** ** The connection *)

Lemma connect_connected self :
  connected (_socket self) = true ->
  connect self = Some (Returned tt, self, []).
Proof.
  intros Hc. unfold connect. rewrite bind_get_self. cbv beta.
  by rewrite Hc.
Qed.

Lemma connect_disconnected self r s1 :
  connected (_socket self) = false ->
  socket_connect (connect_kwargs (_token self)) (_socket self) = (r, s1) ->
  connect self
  = Some (r, with_socket s1 self,
          [Log (LogRecord DEBUG "Connecting to API" [] None);
           SocketConnect (connect_kwargs (_token self))]).
Proof.
  intros Hc Hs. unfold connect. rewrite bind_get_self. cbv beta.
  rewrite Hc. unfold bind, _LOGGER_debug, act, await_socket.
  rewrite Hs. by destruct r.
Qed.

(** C1 (as amended): [connect] translates nothing.  The exception the
    transport's handshake raises, whatever its class, is the one the
    caller of [connect] gets, after exactly one handshake attempt. *)
Theorem connect_propagates_transport_error self e s1 :
  connected (_socket self) = false ->
  socket_connect (connect_kwargs (_token self)) (_socket self)
  = (Raised e, s1) ->
  exists t,
    connect self = Some (Raised e, with_socket s1 self, t)
    /\ handshakes t = 1.
Proof.
  intros Hc Hs. eexists. split; [by apply connect_disconnected | done].
Qed.

(** C4: two calls of [connect] in a row make one handshake attempt: the
    first reaches the transport, the second finds it connected and
    returns at once; on a connected transport [connect] does nothing at
    all. *)
Theorem connect_twice_one_handshake self s1 :
  connected (_socket self) = false ->
  socket_connect (connect_kwargs (_token self)) (_socket self)
  = (Returned tt, s1) ->
  connected s1 = true ->
  (exists t,
     (connect ;; connect) self = Some (Returned tt, with_socket s1 self, t)
     /\ handshakes t = 1)
  /\ (forall c : Self,
        connected (_socket c) = true ->
        connect c = Some (Returned tt, c, [])).
Proof.
  intros Hc Hs Hc1. split; [ | apply connect_connected].
  eexists. unfold bind at 1.
  rewrite (connect_disconnected _ _ _ Hc Hs).
  rewrite connect_connected by done. split; [reflexivity | done].
Qed.

(** C5 (as amended): [disconnect] asks the transport to close and, when
    that request returns, shuts the transport down; what the second step
    answers is what [disconnect] answers.  An error raised by the first
    step reaches the caller and the shutdown is not attempted. *)
Theorem disconnect_two_steps self r1 s1 :
  socket_disconnect (_socket self) = (r1, s1) ->
  match r1 with
  | Returned _ =>
      exists r2 s2,
        socket_shutdown s1 = (r2, s2)
        /\ disconnect self
           = Some (r2, with_socket s2 self,
                   [Log (LogRecord DEBUG "Disconnecting from API" [] None);
                    SocketDisconnect; SocketShutdown])
  | Raised e =>
      disconnect self
      = Some (Raised e, with_socket s1 self,
              [Log (LogRecord DEBUG "Disconnecting from API" [] None);
               SocketDisconnect])
  end.
Proof.
  intros Hd. unfold disconnect, bind, _LOGGER_debug, act, await_socket.
  rewrite Hd. destruct r1 as [[] | e]; [ | done].
  simpl. destruct (socket_shutdown s1) as [r2 s2] eqn:Hs.
  exists r2, s2. split; [done | ]. by destruct r2.
Qed.

(** ** Calls *)

Lemma send_message_unfold event data self :
  send_message event data self
  = Some (fst (socket_call event data (_socket self)),
          with_socket (snd (socket_call event data (_socket self))) self,
          [Log (LogRecord DEBUG "Sending %s message to API: %s"
                  [VStr event; data] None);
           SocketCall event data]).
Proof.
  unfold send_message, bind, _LOGGER_debug, act, await_socket.
  destruct (socket_call event data (_socket self)) as [[v | e] s]; done.
Qed.

(** C6: on a transport that answers a call made while disconnected with
    a communication error, [send_message] on a disconnected client raises
    that error and returns no reply. *)
Theorem send_message_while_disconnected (communication : exception -> Prop)
    event data self :
  (forall ev d s,
     connected s = false ->
     exists e s1, socket_call ev d s = (Raised e, s1) /\ communication e) ->
  connected (_socket self) = false ->
  exists e self1 t,
    send_message event data self = Some (Raised e, self1, t)
    /\ communication e
    /\ (forall reply self2 t2,
          send_message event data self <> Some (Returned reply, self2, t2)).
Proof.
  intros Hcontract Hc.
  destruct (Hcontract event data _ Hc) as (e & s1 & Hcall & Hcomm).
  rewrite send_message_unfold, Hcall. simpl.
  eexists _, _, _. split; [reflexivity | ]. split; [done | ].
  intros reply self2 t2 [=].
Qed.

(** C7: [send_message] returns the reply the transport's call primitive
    produced for the request, as it is; [None] when that is what the
    transport produced. *)
Theorem send_message_returns_reply event data self reply s1 :
  connected (_socket self) = true ->
  socket_call event data (_socket self) = (Returned reply, s1) ->
  send_message event data self
  = Some (Returned reply, with_socket s1 self,
          [Log (LogRecord DEBUG "Sending %s message to API: %s"
                  [VStr event; data] None);
           SocketCall event data])
  /\ (reply = VNone ->
      exists t,
        send_message event data self
        = Some (Returned VNone, with_socket s1 self, t)).
Proof.
  intros _ Hcall. rewrite send_message_unfold, Hcall. simpl.
  split; [done | ]. intros ->. eauto.
Qed.

(** C10: right after construction [on_connected] is the only entry of
    the registry, at position 0 of "connect"; registrations append behind
    it, so every dispatch of "connect" awaits it before each handler the
    host registered for that event. *)
Theorem on_connected_is_awaited_first token session
    (data : option Data) socket regs fuel args :
  let self0 := fst (__init__ token session data socket) in
  let self := register_all regs self0 in
  let users := registered_for "connect" regs in
  Forall (keeps_listeners external "connect") users ->
  Forall (raises_only_Exception external) users ->
  S (length users) < fuel ->
  _listeners self0 = {["connect" := [on_connected_method]]}
  /\ listeners_of self "connect" = on_connected_method :: users
  /\ exists self1 t,
       handle_event external fuel "connect" args self
       = Some (Returned tt, self1, t)
       /\ invocations t
          = (on_connected_method, args) :: ((fun h => (h, args)) <$> users)
       /\ listeners_of self1 "connect" = listeners_of self "connect".
Proof.
  intros self0 self users Hkeep Hexc Hfuel.
  assert (Hl : listeners_of self "connect" = on_connected_method :: users).
  { unfold self. rewrite listeners_of_register_all.
    unfold listeners_of, self0. rewrite listeners_init.
    by rewrite lookup_singleton_eq. }
  split; [apply listeners_init | ]. split; [done | ].
  destruct (handle_event_contained fuel "connect" args self)
    as (self1 & t & Hrun & Hinv & Hsame & _).
  - rewrite Hl. apply Forall_cons. split; [ | done].
    apply on_connected_keeps_listeners.
  - rewrite Hl. apply Forall_cons. split; [ | done].
    apply on_connected_raises_only_Exception.
  - rewrite Hl. simpl. lia.
  - exists self1, (Log (received_record "connect" args) :: t).
    split; [done | ]. split; [ | done].
    change (invocations (Log (received_record "connect" args) :: t))
      with (invocations t).
    by rewrite Hinv, Hl.
Qed.

(** C9: the constructor registers [on_connected] for "connect".  With a
    handler H registered for "connect", once the handshake has completed
    and the transport hands "connect" to the wildcard hook, the dispatch
    awaits [on_connected], which writes its record, and then H, both
    without arguments; the registry is as it was, so the dispatch that
    follows a reconnection does the same. *)
Theorem connect_event_runs_bootstrap_then_handler token session
    (data : option Data) socket H s1 fuel :
  let self0 := fst (__init__ token session data socket) in
  let self := fst (add_event_listener "connect" (External H) self0) in
  keeps_listeners external "connect" (External H) ->
  raises_only_Exception external (External H) ->
  2 < fuel ->
  connected (_socket self) = false ->
  socket_connect (connect_kwargs (_token self)) (_socket self)
  = (Returned tt, s1) ->
  listeners_of self0 "connect" = [on_connected_method]
  /\ (exists self1 t,
        (connect ;; handle_event external fuel "connect" []) self
        = Some (Returned tt, self1,
                Log (LogRecord DEBUG "Connecting to API" [] None)
                :: SocketConnect (connect_kwargs (_token self)) :: t)
        /\ invocations t
           = [(on_connected_method, []); (External H, [])]
        /\ Log (LogRecord DEBUG "(Re)connected to API" [] None) ∈ t
        /\ listeners_of self1 "connect" = listeners_of self "connect"
        /\ exists self2 t2,
             handle_event external fuel "connect" [] self1
             = Some (Returned tt, self2, t2)
             /\ invocations t2
                = [(on_connected_method, []); (External H, [])]).
Proof.
  intros self0 self Hkeep Hexc Hfuel Hc Hs.
  assert (Hl0 : listeners_of self0 "connect" = [on_connected_method]).
  { unfold listeners_of, self0.
    by rewrite listeners_init, lookup_singleton_eq. }
  assert (Hl : listeners_of self "connect"
               = [on_connected_method; External H]).
  { unfold self. rewrite listeners_of_add_event_listener.
    by rewrite decide_True, Hl0. }
  assert (Hdispatch : forall c : Self,
            listeners_of c "connect" = [on_connected_method; External H] ->
            exists c1 t,
              handle_event external fuel "connect" [] c
              = Some (Returned tt, c1,
                      Log (received_record "connect" []) :: t)
              /\ invocations t
                 = [(on_connected_method, []); (External H, [])]
              /\ Log (LogRecord DEBUG "(Re)connected to API" [] None) ∈ t
              /\ listeners_of c1 "connect" = listeners_of c "connect").
  { intros c Hlc.
    destruct (handle_event_contained fuel "connect" [] c)
      as (c1 & t & Hrun & Hinv & Hsame & _).
    - rewrite Hlc. repeat (apply Forall_cons; split); try done.
      apply on_connected_keeps_listeners.
    - rewrite Hlc. repeat (apply Forall_cons; split); try done.
      apply on_connected_raises_only_Exception.
    - rewrite Hlc. simpl. lia.
    - exists c1, t. rewrite Hlc in Hinv. split; [done | ].
      split; [done | ]. split; [ | done].
      rewrite handle_event_unfold in Hrun.
      pose proof (for_loop_unchanged_list "connect" []
                    [on_connected_method; External H] []
                    (after_getitem "connect" c) fuel) as Hloop.
      simpl in Hloop. rewrite Hloop in Hrun.
      + unfold bind, guarded at 1, try_except_Exception in Hrun.
        simpl in Hrun.
        destruct (guarded external "connect" [] (External H)
                    (after_getitem "connect" c))
          as [[[[[] | e] c2] t2] | ]; simplify_eq; set_solver.
      + by rewrite listeners_of_after_getitem.
      + repeat (apply Forall_cons; split); try done.
        apply on_connected_keeps_listeners.
      + lia. }
  split; [done | ].
  destruct (Hdispatch (with_socket s1 self))
    as (self1 & t & Hrun & Hinv & Hlog & Hsame); [done | ].
  destruct (Hdispatch self1) as (self2 & t2 & Hrun2 & Hinv2 & _);
    [by rewrite Hsame | ].
  exists self1, (Log (received_record "connect" []) :: t).
  unfold bind at 1. rewrite (connect_disconnected _ _ _ Hc Hs), Hrun.
  split; [done | ]. split; [done | ].
  split; [by apply elem_of_cons; right | ]. split; [done | ].
  eauto.
Qed.

End Properties.

(** * The properties on the scripted transport *)

Section MockFacts.

Import Mock.

Lemma callable_keeps_listeners (id : nat) (event : string) :
  id < 3 -> keeps_listeners callables event (External id).
Proof.
  intros Hid args self r self1 t. simpl.
  destruct id as [ | [ | [ | id]]]; [ | | | lia];
    simpl; intros [= _ <- _]; reflexivity.
Qed.

Lemma callable_raises_only_Exception (id : nat) :
  id <> 2 -> raises_only_Exception callables (External id).
Proof.
  intros Hid args self e self1 t. simpl.
  destruct id as [ | [ | [ | id]]]; [ | | lia | ];
    simpl; intros [= <- _ _]; reflexivity.
Qed.

Lemma callable_1_always_raises (args : list value) :
  always_raises callables (External 1) args ValueError.
Proof. intros self. simpl. eauto. Qed.

Lemma mock_call_needs_connection (ev : string) (d : value) (s : socket) :
  connected s = false ->
  exists e s1,
    socket_call ev d s = (Raised e, s1) /\ e = BadNamespaceError.
Proof. simpl. intros ->. eauto. Qed.

(** A listener appended to the list while it is iterated is reached by
    the same dispatch: callable 3 registers callable 0 for "ping". *)
Example appended_listener_is_reached :
  option_map (fun x => invocations (snd x))
    (handle_event callables 3 "ping" []
       (register_all [("ping", External 3)] (new_client idle)))
  = Some [(External 3, []); (External 0, [])].
Proof. reflexivity. Qed.

(** The same dispatch needs three steps of the loop: two handlers and the
    end of the list. *)
Example appended_listener_needs_fuel :
  handle_event callables 2 "ping" []
    (register_all [("ping", External 3)] (new_client idle))
  = None.
Proof. reflexivity. Qed.

(** [on_connected] takes no argument: awaited with one, the [TypeError] is
    logged like any handler error. *)
Example on_connected_with_argument :
  option_map (fun x => (fst (fst x), snd x))
    (handle_event callables 2 "connect" [VInt 1] (new_client idle))
  = Some (Returned tt,
          [Log (received_record "connect" [VInt 1]);
           Await on_connected_method [VInt 1];
           Log (error_record "connect" [VInt 1]
                  (Raise TypeError
                     "on_connected() takes 1 positional argument"))]).
Proof. reflexivity. Qed.

End MockFacts.

(** ** Runs of the properties *)

Lemma handle_event_invokes_each_handler_once_witness :
  (exists self1 t,
     handle_event Mock.callables 3 "ping" [VStr "payload"] Mock.ping_client
     = Some (Returned tt, self1, t)
     /\ invocations t
        = [(External 1, [VStr "payload"]); (External 0, [VStr "payload"])])
  /\ (forall regs (c : Mock.client),
        listeners_of (register_all regs c) "ping"
        = listeners_of c "ping" ++ registered_for "ping" regs).
Proof.
  apply (handle_event_invokes_each_handler_once Mock.callables 3 "ping"
           [VStr "payload"] Mock.ping_client).
  - repeat constructor; apply callable_keeps_listeners; lia.
  - repeat constructor; apply callable_raises_only_Exception; lia.
  - vm_compute. lia.
Defined.

Lemma handler_Exception_is_contained_witness :
  exists self1 t,
    handle_event Mock.callables 3 "ping" [VStr "payload"] Mock.ping_client
    = Some (Returned tt, self1, t)
    /\ drop 1 (invocations t) = [(External 0, [VStr "payload"])]
    /\ invocations t !! 0 = Some (External 1, [VStr "payload"])
    /\ Log (error_record "ping" [VStr "payload"] Mock.ValueError) ∈ t.
Proof.
  apply (handler_Exception_is_contained Mock.callables 3 "ping"
           [VStr "payload"] Mock.ping_client 0 (External 1) Mock.ValueError).
  - repeat constructor; apply callable_keeps_listeners; lia.
  - repeat constructor; apply callable_raises_only_Exception; lia.
  - vm_compute. lia.
  - reflexivity.
  - apply callable_1_always_raises.
  - reflexivity.
Defined.

(** C3, as stated, fails: a handler that raises [CancelledError], which
    is no [Exception], stops the dispatch; the error reaches the caller of
    [handle_event] and the handler after it is never awaited. *)
Lemma CancelledError_escapes_handle_event :
  listeners_of Mock.cancelled_client "ping" = [External 2; External 0]
  /\ exists self1 t,
       handle_event Mock.callables 3 "ping" [VStr "payload"]
         Mock.cancelled_client
       = Some (Raised Mock.CancelledError, self1, t)
       /\ invocations t = [(External 2, [VStr "payload"])].
Proof. split; [reflexivity | ]. eexists _, _. split; reflexivity. Qed.

(** C1, as stated, fails: the error of a failed handshake reaches the
    caller as the transport raised it, a socket.io [ConnectionError], which
    is none of the client's own error classes. *)
Lemma connect_error_is_not_translated :
  connected (_socket (Mock.new_client Mock.unreachable)) = false
  /\ exists e self1 t,
       connect (Mock.new_client Mock.unreachable)
       = Some (Raised e, self1, t)
       /\ handshakes t = 1
       /\ isinstance e OnlyCatApiClientCommunicationError = false
       /\ isinstance e OnlyCatApiClientAuthenticationError = false
       /\ isinstance e OnlyCatApiClientError = false.
Proof.
  split; [reflexivity | ]. eexists _, _, _.
  split; [reflexivity | ]. repeat split; reflexivity.
Qed.

Lemma connect_propagates_transport_error_witness :
  exists t,
    connect (Mock.new_client Mock.unreachable)
    = Some (Raised Mock.ConnectionError,
            with_socket (socket_on "*" Mock.unreachable)
              (Mock.new_client Mock.unreachable), t)
    /\ handshakes t = 1.
Proof.
  apply (connect_propagates_transport_error
           (Mock.new_client Mock.unreachable) Mock.ConnectionError
           (socket_on "*" Mock.unreachable)).
  - reflexivity.
  - reflexivity.
Defined.

Lemma connect_twice_one_handshake_witness :
  (exists t,
     (connect ;; connect) (Mock.new_client Mock.idle)
     = Some (Returned tt,
             with_socket (Mock.set_connected true (socket_on "*" Mock.idle))
               (Mock.new_client Mock.idle), t)
     /\ handshakes t = 1)
  /\ (forall c : Mock.client,
        connected (_socket c) = true ->
        connect c = Some (Returned tt, c, [])).
Proof.
  apply (connect_twice_one_handshake (Mock.new_client Mock.idle)
           (Mock.set_connected true (socket_on "*" Mock.idle))).
  - reflexivity.
  - reflexivity.
  - reflexivity.
Defined.

(** C5, as stated, fails: when the transport answers the request to close
    with an error because nothing is open, [disconnect] raises that error to
    its caller and does not reach the shutdown. *)
Lemma disconnect_raises_when_close_fails :
  connected (_socket (Mock.new_client Mock.strict)) = false
  /\ exists e self1 t,
       disconnect (Mock.new_client Mock.strict) = Some (Raised e, self1, t)
       /\ SocketDisconnect ∈ t
       /\ SocketShutdown ∉ t.
Proof.
  split; [reflexivity | ]. eexists _, _, _. split; [reflexivity | ].
  split; [set_solver | ]. intros Hin.
  repeat (apply elem_of_cons in Hin as [Heq | Hin]; [discriminate Heq | ]).
  by apply elem_of_nil in Hin.
Qed.

Lemma disconnect_two_steps_witness :
  exists r2 s2,
    socket_shutdown (Mock.set_connected false (socket_on "*" Mock.idle))
    = (r2, s2)
    /\ disconnect (Mock.new_client Mock.idle)
       = Some (r2, with_socket s2 (Mock.new_client Mock.idle),
               [Log (LogRecord DEBUG "Disconnecting from API" [] None);
                SocketDisconnect; SocketShutdown]).
Proof.
  apply (disconnect_two_steps (Mock.new_client Mock.idle) (Returned tt)
           (Mock.set_connected false (socket_on "*" Mock.idle))).
  reflexivity.
Defined.

Lemma send_message_while_disconnected_witness :
  exists e self1 t,
    send_message "getStatus" (VDict [("id", VInt 1)])
      (Mock.new_client Mock.idle)
    = Some (Raised e, self1, t)
    /\ e = Mock.BadNamespaceError
    /\ (forall reply self2 t2,
          send_message "getStatus" (VDict [("id", VInt 1)])
            (Mock.new_client Mock.idle)
          <> Some (Returned reply, self2, t2)).
Proof.
  apply (send_message_while_disconnected
           (fun e => e = Mock.BadNamespaceError)
           "getStatus" (VDict [("id", VInt 1)]) (Mock.new_client Mock.idle)).
  - apply mock_call_needs_connection.
  - reflexivity.
Defined.

Lemma send_message_returns_reply_witness :
  send_message "getStatus" (VDict [("id", VInt 1)])
    (Mock.new_client (Mock.replying (VDict [("status", VStr "ok")])))
  = Some (Returned (VDict [("status", VStr "ok")]),
          Mock.new_client (Mock.replying (VDict [("status", VStr "ok")])),
          [Log (LogRecord DEBUG "Sending %s message to API: %s"
                  [VStr "getStatus"; VDict [("id", VInt 1)]] None);
           SocketCall "getStatus" (VDict [("id", VInt 1)])])
  /\ (VDict [("status", VStr "ok")] = VNone ->
      exists t,
        send_message "getStatus" (VDict [("id", VInt 1)])
          (Mock.new_client (Mock.replying (VDict [("status", VStr "ok")])))
        = Some (Returned VNone,
                Mock.new_client
                  (Mock.replying (VDict [("status", VStr "ok")])), t)).
Proof.
  apply (send_message_returns_reply "getStatus" (VDict [("id", VInt 1)])
           (Mock.new_client (Mock.replying (VDict [("status", VStr "ok")])))
           (VDict [("status", VStr "ok")])
           (socket_on "*" (Mock.replying (VDict [("status", VStr "ok")])))).
  - reflexivity.
  - reflexivity.
Defined.

(** C8, as stated, fails: dispatching an event nobody listens to adds the
    event to the keys of the registry. *)
Lemma handle_event_adds_key :
  listeners_of (Mock.new_client Mock.idle) "ping" = []
  /\ _listeners (Mock.new_client Mock.idle) !! "ping" = None
  /\ exists self1 t,
       handle_event Mock.callables 1 "ping" [] (Mock.new_client Mock.idle)
       = Some (Returned tt, self1, t)
       /\ _listeners self1 !! "ping" = Some []
       /\ _listeners self1 <> _listeners (Mock.new_client Mock.idle)
       /\ dom (_listeners self1)
          <> dom (_listeners (Mock.new_client Mock.idle)).
Proof.
  split; [reflexivity | ]. split; [reflexivity | ].
  eexists _, _. split; [reflexivity | ]. split; [reflexivity | ].
  split.
  - intros Heq. apply (f_equal (fun d => d !! "ping")) in Heq.
    vm_compute in Heq. discriminate Heq.
  - intros Heq. apply (f_equal (fun d => bool_decide ("ping" ∈ d))) in Heq.
    vm_compute in Heq. discriminate Heq.
Qed.

Lemma handle_event_without_listeners_witness :
  handle_event Mock.callables 1 "ping" [VStr "payload"]
    (Mock.new_client Mock.idle)
  = Some (Returned tt,
          with_listeners
            (<["ping" := []]> (_listeners (Mock.new_client Mock.idle)))
            (Mock.new_client Mock.idle),
          [Log (received_record "ping" [VStr "payload"])])
  /\ (forall ev,
        listeners_of
          (with_listeners
             (<["ping" := []]> (_listeners (Mock.new_client Mock.idle)))
             (Mock.new_client Mock.idle)) ev
        = listeners_of (Mock.new_client Mock.idle) ev)
  /\ (forall ev,
        ev <> "ping" ->
        _listeners
          (with_listeners
             (<["ping" := []]> (_listeners (Mock.new_client Mock.idle)))
             (Mock.new_client Mock.idle)) !! ev
        = _listeners (Mock.new_client Mock.idle) !! ev)
  /\ dom (_listeners
            (with_listeners
               (<["ping" := []]> (_listeners (Mock.new_client Mock.idle)))
               (Mock.new_client Mock.idle)))
     = {["ping"]} ∪ dom (_listeners (Mock.new_client Mock.idle)).
Proof.
  apply (handle_event_without_listeners Mock.callables 1 "ping"
           [VStr "payload"] (Mock.new_client Mock.idle)).
  - reflexivity.
  - lia.
Defined.

Lemma on_connected_is_awaited_first_witness :
  _listeners (Mock.new_client Mock.idle)
  = {["connect" := [on_connected_method]]}
  /\ listeners_of
       (register_all [("connect", External 1); ("ping", External 0);
                      ("connect", External 0)]
          (Mock.new_client Mock.idle)) "connect"
     = [on_connected_method; External 1; External 0]
  /\ exists self1 t,
       handle_event Mock.callables 4 "connect" []
         (register_all [("connect", External 1); ("ping", External 0);
                        ("connect", External 0)]
            (Mock.new_client Mock.idle))
       = Some (Returned tt, self1, t)
       /\ invocations t
          = [(on_connected_method, []); (External 1, []); (External 0, [])]
       /\ listeners_of self1 "connect"
          = listeners_of
              (register_all [("connect", External 1); ("ping", External 0);
                             ("connect", External 0)]
                 (Mock.new_client Mock.idle)) "connect".
Proof.
  apply (on_connected_is_awaited_first Mock.callables "token" tt None
           (Some Mock.idle)
           [("connect", External 1); ("ping", External 0);
            ("connect", External 0)] 4 []).
  - repeat constructor; apply callable_keeps_listeners; lia.
  - repeat constructor; apply callable_raises_only_Exception; lia.
  - vm_compute. lia.
Defined.

Lemma connect_event_runs_bootstrap_then_handler_witness :
  listeners_of (Mock.new_client Mock.idle) "connect" = [on_connected_method]
  /\ exists self1 t,
       (connect ;; handle_event Mock.callables 3 "connect" [])
         (fst (add_event_listener "connect" (External 0)
                 (Mock.new_client Mock.idle)))
       = Some (Returned tt, self1,
               Log (LogRecord DEBUG "Connecting to API" [] None)
               :: SocketConnect (connect_kwargs "token") :: t)
       /\ invocations t = [(on_connected_method, []); (External 0, [])]
       /\ Log (LogRecord DEBUG "(Re)connected to API" [] None) ∈ t
       /\ listeners_of self1 "connect"
          = listeners_of
              (fst (add_event_listener "connect" (External 0)
                      (Mock.new_client Mock.idle))) "connect"
       /\ exists self2 t2,
            handle_event Mock.callables 3 "connect" [] self1
            = Some (Returned tt, self2, t2)
            /\ invocations t2
               = [(on_connected_method, []); (External 0, [])].
Proof.
  apply (connect_event_runs_bootstrap_then_handler Mock.callables "token" tt
           None (Some Mock.idle) 0
           (Mock.set_connected true (socket_on "*" Mock.idle)) 3).
  - apply callable_keeps_listeners. lia.
  - apply callable_raises_only_Exception. lia.
  - lia.
  - reflexivity.
  - reflexivity.
Defined.

(** * Further properties of the module *)

Section Further.

Context {Session Data Socket : Type} `{!AsyncClient Session Socket}.

Local Abbreviation Self := (@OnlyCatApiClient Session Data Socket).

Variable external : nat -> list value -> Self -> outcome unit * Self.

Implicit Types (self : Self) (event : string) (args : list value).
Implicit Types (cb : callback) (hs : list callback) (t : list action).

(** ** The error classes (lines 21-34) *)

Lemma OnlyCat_subclass_is_Exception (c : pyclass) :
  issubclass c OnlyCatApiClientError = true ->
  issubclass c Exception = true.
Proof.
  unfold issubclass. rewrite !bool_decide_eq_true.
  induction c as [ | | | | | | name base IH]; simpl;
    rewrite ?elem_of_cons, ?elem_of_nil.
  all: try (intros Hin; repeat destruct Hin as [Hin | Hin];
            try discriminate Hin; try contradiction; tauto).
  intros [Heq | Hin]; [discriminate Heq | right; exact (IH Hin)].
Qed.

(** X1: an instance of [OnlyCatApiClientError], of one of its two
    subclasses or of a class derived from them is an instance of
    [Exception]; the communication and the authentication error are both
    client errors, and neither is the other. *)
Theorem OnlyCat_errors_hierarchy :
  (forall e : exception,
     isinstance e OnlyCatApiClientError = true ->
     isinstance e Exception = true)
  /\ (forall e : exception,
        isinstance e OnlyCatApiClientCommunicationError = true
        \/ isinstance e OnlyCatApiClientAuthenticationError = true ->
        isinstance e OnlyCatApiClientError = true)
  /\ issubclass OnlyCatApiClientCommunicationError
       OnlyCatApiClientAuthenticationError = false
  /\ issubclass OnlyCatApiClientAuthenticationError
       OnlyCatApiClientCommunicationError = false
  /\ issubclass OnlyCatApiClientError
       OnlyCatApiClientCommunicationError = false
  /\ issubclass OnlyCatApiClientError
       OnlyCatApiClientAuthenticationError = false.
Proof.
  split; [intros e; apply OnlyCat_subclass_is_Exception | ].
  split; [ | repeat split; reflexivity].
  intros [c msg]. unfold isinstance, issubclass. simpl.
  rewrite !bool_decide_eq_true.
  induction c as [ | | | | | | name base IH]; simpl;
    rewrite ?elem_of_cons, ?elem_of_nil.
  all: try (intros [Hin | Hin]; repeat destruct Hin as [Hin | Hin];
            try discriminate Hin; try contradiction; tauto).
  intros [[Heq | Hin] | [Heq | Hin]]; try discriminate Heq;
    right; apply IH; tauto.
Qed.

(** ** What the operations on the transport leave alone *)



Lemma same_but_socket_trans self self1 self2 :
  same_but_socket self self1 -> same_but_socket self1 self2 ->
  same_but_socket self self2.
Proof.
  unfold same_but_socket. intros H1 H2. rewrite H2, H1.
  by destruct self.
Qed.


(** ** Registration *)

(** X3: [add_event_listener] puts the callback at the end of the event's
    list, whether it is there already or not, and creates the key when the
    event is new; the lists of the other events, the transport and the
    token are untouched, and one debug record is written. *)
Theorem add_event_listener_appends event cb self :
  listeners_of (fst (add_event_listener event cb self)) event
  = listeners_of self event ++ [cb]
  /\ (forall ev,
        ev <> event ->
        _listeners (fst (add_event_listener event cb self)) !! ev
        = _listeners self !! ev)
  /\ dom (_listeners (fst (add_event_listener event cb self)))
     = {[event]} ∪ dom (_listeners self)
  /\ _socket (fst (add_event_listener event cb self)) = _socket self
  /\ _token (fst (add_event_listener event cb self)) = _token self
  /\ snd (add_event_listener event cb self)
     = [Log (LogRecord DEBUG "Added event listener for event: %s"
               [VStr event] None)].
Proof.
  split; [ | split; [ | split]].
  - by rewrite listeners_of_add_event_listener, decide_True.
  - intros ev Hne. rewrite listeners_add_event_listener.
    by rewrite lookup_insert_ne.
  - by rewrite listeners_add_event_listener, dom_insert_L.
  - unfold add_event_listener.
    by destruct (defaultdict_getitem event (_listeners self)).
Qed.

(** ** What a dispatch does and does not do *)

Lemma await_callback_trace cb args self r self1 t :
  await_callback external cb args self = Some (r, self1, t) ->
  Forall (fun a => is_socket_action a = false) t
  /\ (forall rec, Log rec ∈ t -> log_level rec = DEBUG)
  /\ invocations t = [(cb, args)].
Proof.
  destruct cb as [ | id]; simpl.
  - destruct args as [ | a args]; cbv -[elem_of]; intros [= <- <- <-];
      (split; [repeat constructor | ]); (split; [ | done]);
      intros rec Hin;
      repeat (apply elem_of_cons in Hin as [Heq | Hin];
              [by simplify_eq | ]);
      by apply elem_of_nil in Hin.
  - destruct (external id args self) as [r0 s0]. intros [= <- <- <-].
    split; [repeat constructor | ]. split; [ | done].
    intros rec Hin.
    apply elem_of_cons in Hin as [Heq | Hin]; [discriminate Heq | ].
    by apply elem_of_nil in Hin.
Qed.

Lemma guarded_no_socket event args cb self r self1 t :
  guarded external event args cb self = Some (r, self1, t) ->
  Forall (fun a => is_socket_action a = false) t.
Proof.
  unfold guarded, try_except_Exception.
  destruct (await_callback external cb args self)
    as [[[[a | e] self0] t0] | ] eqn:Hrun; [ | | discriminate].
  - intros [= <- <- <-]. by apply await_callback_trace in Hrun as [? _].
  - apply await_callback_trace in Hrun as [Hno _].
    destruct (isinstance e Exception).
    + cbv [_LOGGER_exception act]. intros [= <- <- <-].
      apply Forall_app. split; [done | repeat constructor].
    + by intros [= <- <- <-].
Qed.

Lemma for_loop_no_socket fuel :
  forall event args i self r self1 t,
    for_callback_in_listeners external fuel event args i self
    = Some (r, self1, t) ->
    Forall (fun a => is_socket_action a = false) t.
Proof.
  induction fuel as [ | fuel IH]; intros event args i self r self1 t Hrun;
    [discriminate Hrun | ].
  cbn [for_callback_in_listeners] in Hrun.
  rewrite bind_get_self in Hrun. cbv beta in Hrun.
  destruct (listeners_of self event !! i) as [cb | ].
  - unfold bind in Hrun.
    destruct (guarded external event args cb self)
      as [[[[[] | e] self0] t0] | ] eqn:Hg; [ | | discriminate].
    + destruct (for_callback_in_listeners external fuel event args (S i)
                  self0) as [[[r2 self2] t2] | ] eqn:Hrest; [ | discriminate].
      injection Hrun as <- <- <-. apply Forall_app. split.
      * by eapply guarded_no_socket.
      * by eapply IH.
    + injection Hrun as <- <- <-. by eapply guarded_no_socket.
  - injection Hrun as <- <- <-. constructor.
Qed.

Lemma no_socket_no_handshake t :
  Forall (fun a => is_socket_action a = false) t -> handshakes t = 0.
Proof.
  unfold handshakes. induction 1 as [ | a t Ha _ IH]; [done | ].
  rewrite filter_cons. destruct a; try discriminate Ha; by simpl.
Qed.

(** X5: a dispatch that finishes, whatever the handlers did and whether
    it returned or raised, has called no operation of the transport
    itself: its trace is made of log records and awaited callbacks, and it
    starts with the record of the event received. *)
Theorem handle_event_calls_no_transport_operation fuel event args self
    r self1 t :
  handle_event external fuel event args self = Some (r, self1, t) ->
  Forall (fun a => is_socket_action a = false) t
  /\ handshakes t = 0
  /\ head t = Some (Log (received_record event args)).
Proof.
  rewrite handle_event_unfold. intros Hrun.
  destruct (for_callback_in_listeners external fuel event args 0
              (after_getitem event self))
    as [[[r0 self0] t0] | ] eqn:Hloop; [ | discriminate].
  injection Hrun as <- <- <-.
  assert (Hno : Forall (fun a => is_socket_action a = false)
                  (Log (received_record event args) :: t0)).
  { constructor; [done | ]. by eapply for_loop_no_socket. }
  split; [done | ]. split; [by apply no_socket_no_handshake | done].
Qed.

(** A finished loop has awaited, from position [i] on, the handlers of the
    list as it is in the end, when callables add to the list at most. *)
Lemma for_loop_awaits_final_list fuel :
  forall event args i self self1 t,
    (forall cb, appends_only external event cb) ->
    for_callback_in_listeners external fuel event args i self
    = Some (Returned tt, self1, t) ->
    listeners_of self event `prefix_of` listeners_of self1 event
    /\ invocations t
       = (fun cb => (cb, args)) <$> drop i (listeners_of self1 event).
Proof.
  induction fuel as [ | fuel IH];
    intros event args i self self1 t Happ Hrun; [discriminate Hrun | ].
  cbn [for_callback_in_listeners] in Hrun.
  rewrite bind_get_self in Hrun. cbv beta in Hrun.
  destruct (listeners_of self event !! i) as [cb | ] eqn:Hi.
  - unfold bind in Hrun.
    destruct (guarded external event args cb self)
      as [[[[[] | e] self0] t0] | ] eqn:Hg; [ | discriminate | discriminate].
    destruct (for_callback_in_listeners external fuel event args (S i)
                self0) as [[[r2 self2] t2] | ] eqn:Hrest; [ | discriminate].
    injection Hrun as -> -> <-.
    destruct (guarded_inv _ _ _ _ _ _ _ _ Hg) as (r0 & t00 & Hrun0 & Hinv0 & _).
    pose proof (Happ cb _ _ _ _ _ Hrun0) as Hpre0.
    apply await_callback_trace in Hrun0 as (_ & _ & Hinv00).
    destruct (IH event args (S i) self0 self1 t2 Happ Hrest)
      as [Hpre Hinv2].
    split; [by etrans | ].
    rewrite invocations_app, Hinv0, Hinv00, Hinv2.
    assert (Hi1 : listeners_of self1 event !! i = Some cb).
    { eapply prefix_lookup_Some; [exact Hi | by etrans]. }
    by rewrite (drop_S _ _ _ Hi1).
  - injection Hrun as <- <-. split; [done | ].
    rewrite drop_ge; [done | ]. by apply lookup_ge_None.
Qed.

(** X6: the loop runs over the list itself, not over a copy.  When the
    callables add listeners at most, a dispatch that returns has awaited
    every handler the event has at the end, once each and in order: those
    it had at the start, then those registered for it while it ran. *)
Theorem handle_event_awaits_listeners_added_meanwhile fuel event args self
    self1 t :
  (forall cb, appends_only external event cb) ->
  handle_event external fuel event args self = Some (Returned tt, self1, t) ->
  listeners_of self event `prefix_of` listeners_of self1 event
  /\ invocations t = (fun cb => (cb, args)) <$> listeners_of self1 event.
Proof.
  intros Happ. rewrite handle_event_unfold. intros Hrun.
  destruct (for_callback_in_listeners external fuel event args 0
              (after_getitem event self))
    as [[[r0 self0] t0] | ] eqn:Hloop; [ | discriminate].
  injection Hrun as -> -> <-.
  destruct (for_loop_awaits_final_list _ _ _ _ _ _ _ Happ Hloop)
    as [Hpre Hinv].
  rewrite listeners_of_after_getitem in Hpre. split; [done | ].
  change (invocations (Log (received_record event args) :: t0))
    with (invocations t0).
  by rewrite Hinv, drop_0.
Qed.

(** ** Errors that are not contained *)

Lemma run_callbacks_escapes event args cb e :
  always_raises external cb args e ->
  isinstance e Exception = false ->
  forall hs k self,
    Forall (raises_only_Exception external) (take k hs) ->
    hs !! k = Some cb ->
    exists self1 t,
      run_callbacks external event args hs self = Some (Raised e, self1, t)
      /\ invocations t = (fun h => (h, args)) <$> take (S k) hs.
Proof.
  intros Hraise Hbase.
  induction hs as [ | h hs IH]; intros k self Hexc Hk; [done | ].
  cbn [run_callbacks]. unfold bind. destruct k as [ | k]; simpl in Hk.
  - injection Hk as ->. destruct (Hraise self) as (self1 & t & Hrun).
    unfold guarded, try_except_Exception. rewrite Hrun, Hbase.
    exists self1, t. split; [done | ].
    by apply await_callback_trace in Hrun as (_ & _ & ->).
  - simpl in Hexc. apply Forall_cons in Hexc as [Hh Hexc].
    destruct (guarded_contained external event args h self Hh)
      as (self0 & t0 & -> & Hinv0).
    destruct (IH k self0 Hexc Hk) as (self1 & t & -> & Hinv).
    exists self1, (t0 ++ t). split; [done | ].
    by rewrite invocations_app, Hinv0, Hinv.
Qed.

(** X7: an error that is no instance of [Exception] (a cancellation, say)
    raised by the handler at position [k] ends the dispatch there: it
    reaches the caller of [handle_event], the handlers up to [k] have been
    awaited and those after it have not. *)
Theorem handle_event_stops_at_BaseException fuel event args self k cb e :
  Forall (keeps_listeners external event) (listeners_of self event) ->
  Forall (raises_only_Exception external)
    (take k (listeners_of self event)) ->
  length (listeners_of self event) < fuel ->
  listeners_of self event !! k = Some cb ->
  always_raises external cb args e ->
  isinstance e Exception = false ->
  exists self1 t,
    handle_event external fuel event args self = Some (Raised e, self1, t)
    /\ invocations t
       = (fun h => (h, args)) <$> take (S k) (listeners_of self event).
Proof.
  intros Hkeep Hexc Hfuel Hk Hraise Hbase.
  destruct (run_callbacks_escapes event args cb e Hraise Hbase
              (listeners_of self event) k (after_getitem event self)
              Hexc Hk) as (self1 & t & Hrun & Hinv).
  exists self1, (Log (received_record event args) :: t).
  rewrite handle_event_unfold.
  pose proof (for_loop_unchanged_list external event args
                (listeners_of self event) [] (after_getitem event self)
                fuel) as Hloop.
  simpl in Hloop. rewrite Hloop, Hrun; try done.
  by rewrite listeners_of_after_getitem.
Qed.

(** ** Handlers that raise, and handlers that do not *)

Lemma on_connected_rejects_arguments a args :
  always_raises external on_connected_method (a :: args)
    (Raise TypeError "on_connected() takes 1 positional argument").
Proof. intros self. simpl. cbv. eauto. Qed.

(** X9: [on_connected] takes no argument.  A "connect" event that comes
    with arguments makes the built-in handler fail with a [TypeError],
    which is logged; the host's handlers are awaited after it with the
    arguments, and the dispatch returns. *)
Theorem connect_event_with_arguments fuel a args self users :
  listeners_of self "connect" = on_connected_method :: users ->
  Forall (keeps_listeners external "connect") users ->
  Forall (raises_only_Exception external) users ->
  S (length users) < fuel ->
  exists self1 t,
    handle_event external fuel "connect" (a :: args) self
    = Some (Returned tt, self1, t)
    /\ invocations t
       = (on_connected_method, a :: args)
         :: ((fun h => (h, a :: args)) <$> users)
    /\ Log (error_record "connect" (a :: args)
              (Raise TypeError "on_connected() takes 1 positional argument"))
       ∈ t.
Proof.
  intros Hl Hkeep Hexc Hfuel.
  destruct (handle_event_contained external fuel "connect" (a :: args) self)
    as (self1 & t & Hrun & Hinv & _ & Hlog).
  - rewrite Hl. apply Forall_cons. split; [ | done].
    apply on_connected_keeps_listeners.
  - rewrite Hl. apply Forall_cons. split; [ | done].
    apply on_connected_raises_only_Exception.
  - rewrite Hl. simpl. lia.
  - exists self1, (Log (received_record "connect" (a :: args)) :: t).
    split; [done | ]. rewrite Hl in Hinv. split; [done | ].
    apply elem_of_cons. right.
    apply (Hlog on_connected_method); [rewrite Hl; apply elem_of_cons; by left | ].
    apply on_connected_rejects_arguments.
Qed.

Lemma run_callbacks_quiet event args hs :
  forall self,
    Forall (fun cb => always_returns external cb args) hs ->
    exists self1 t,
      run_callbacks external event args hs self
      = Some (Returned tt, self1, t)
      /\ (forall rec, Log rec ∈ t -> log_level rec = DEBUG)
      /\ invocations t = (fun cb => (cb, args)) <$> hs.
Proof.
  induction hs as [ | cb hs IH]; intros self Hret.
  - exists self, []. split; [done | ]. split; [ | done].
    intros rec Hin. by apply elem_of_nil in Hin.
  - apply Forall_cons in Hret as [Hcb Hret].
    destruct (Hcb self) as (self0 & t0 & Hrun).
    destruct (IH self0 Hret) as (self1 & t & Hrest & Hquiet & Hinv).
    exists self1, (t0 ++ t). cbn [run_callbacks].
    unfold bind, guarded, try_except_Exception. rewrite Hrun, Hrest.
    apply await_callback_trace in Hrun as (_ & Hquiet0 & Hinv0).
    split; [done | ]. split.
    + intros rec Hin. apply elem_of_app in Hin as [Hin | Hin]; eauto.
    + by rewrite invocations_app, Hinv0, Hinv.
Qed.

(** X10: when every handler of the event returns, the dispatch writes no
    error record: all it logs is at debug level. *)
Theorem handle_event_logs_no_error_without_a_raise fuel event args self :
  Forall (keeps_listeners external event) (listeners_of self event) ->
  Forall (fun cb => always_returns external cb args)
    (listeners_of self event) ->
  length (listeners_of self event) < fuel ->
  exists self1 t,
    handle_event external fuel event args self = Some (Returned tt, self1, t)
    /\ (forall rec, Log rec ∈ t -> log_level rec = DEBUG)
    /\ invocations t = (fun cb => (cb, args)) <$> listeners_of self event.
Proof.
  intros Hkeep Hret Hfuel.
  destruct (run_callbacks_quiet event args (listeners_of self event)
              (after_getitem event self) Hret)
    as (self1 & t & Hrun & Hquiet & Hinv).
  exists self1, (Log (received_record event args) :: t).
  rewrite handle_event_unfold.
  pose proof (for_loop_unchanged_list external event args
                (listeners_of self event) [] (after_getitem event self)
                fuel) as Hloop.
  simpl in Hloop. rewrite Hloop, Hrun; try done.
  - split; [done | ]. split; [ | done].
    intros rec Hin. apply elem_of_cons in Hin as [Heq | Hin]; eauto.
    by injection Heq as ->.
  - by rewrite listeners_of_after_getitem.
Qed.

(** X13: a handler that raised does not spoil the next event: two
    dispatches in a row await the whole list twice, each time with the
    arguments of its event. *)
Theorem handle_event_twice fuel event args1 args2 self :
  Forall (keeps_listeners external event) (listeners_of self event) ->
  Forall (raises_only_Exception external) (listeners_of self event) ->
  length (listeners_of self event) < fuel ->
  exists self2 t,
    (handle_event external fuel event args1 ;;
     handle_event external fuel event args2) self
    = Some (Returned tt, self2, t)
    /\ invocations t
       = ((fun cb => (cb, args1)) <$> listeners_of self event)
         ++ ((fun cb => (cb, args2)) <$> listeners_of self event)
    /\ listeners_of self2 event = listeners_of self event.
Proof.
  intros Hkeep Hexc Hfuel.
  destruct (handle_event_contained external fuel event args1 self
              Hkeep Hexc Hfuel) as (self1 & t1 & Hrun1 & Hinv1 & Hsame1 & _).
  destruct (handle_event_contained external fuel event args2 self1)
    as (self2 & t2 & Hrun2 & Hinv2 & Hsame2 & _);
    [by rewrite Hsame1 .. | ].
  eexists _, _. unfold bind. rewrite Hrun1, Hrun2.
  split; [reflexivity | ]. split; [ | by rewrite Hsame2].
  rewrite invocations_app.
  change (invocations (Log ?r :: ?t)) with (invocations t).
  by rewrite Hinv1, Hinv2, Hsame1.
Qed.

(** X4: nothing is de-duplicated.  A callback registered [n] times more
    for an event is awaited [n] times more by each dispatch of the event,
    after the handlers that were there. *)
Theorem listener_registered_n_times fuel event args self cb n :
  Forall (keeps_listeners external event) (listeners_of self event) ->
  Forall (raises_only_Exception external) (listeners_of self event) ->
  keeps_listeners external event cb ->
  raises_only_Exception external cb ->
  length (listeners_of self event) + n < fuel ->
  listeners_of (register_all (replicate n (event, cb)) self) event
  = listeners_of self event ++ replicate n cb
  /\ exists self1 t,
       handle_event external fuel event args
         (register_all (replicate n (event, cb)) self)
       = Some (Returned tt, self1, t)
       /\ invocations t
          = ((fun h => (h, args)) <$> listeners_of self event)
            ++ replicate n (cb, args).
Proof.
  intros Hkeep Hexc Hkcb Hecb Hfuel.
  assert (Hl : listeners_of (register_all (replicate n (event, cb)) self)
                 event = listeners_of self event ++ replicate n cb).
  { rewrite listeners_of_register_all. f_equal. unfold registered_for.
    induction n as [ | n IH]; [done | ]. simpl.
    rewrite filter_cons. simpl. rewrite decide_True by done.
    simpl. f_equal. apply IH. lia. }
  split; [done | ].
  destruct (handle_event_contained external fuel event args
              (register_all (replicate n (event, cb)) self))
    as (self1 & t & Hrun & Hinv & _).
  - rewrite Hl. apply Forall_app. split; [done | ].
    by apply Forall_replicate.
  - rewrite Hl. apply Forall_app. split; [done | ].
    by apply Forall_replicate.
  - rewrite Hl, length_app, length_replicate. lia.
  - exists self1, (Log (received_record event args) :: t).
    split; [done | ].
    change (invocations (Log (received_record event args) :: t))
      with (invocations t).
    by rewrite Hinv, Hl, fmap_app, fmap_replicate.
Qed.

(** ** The connection, again *)

(** X8: [disconnect] creates no new transport.  A [connect] that follows
    a completed [disconnect] makes its handshake attempt on the transport
    that was shut down, with the same request, and answers what that
    attempt answers; the registry is as it was. *)
Theorem connect_after_disconnect_reuses_the_transport self s1 s2 r s3 :
  socket_disconnect (_socket self) = (Returned tt, s1) ->
  socket_shutdown s1 = (Returned tt, s2) ->
  connected s2 = false ->
  socket_connect (connect_kwargs (_token self)) s2 = (r, s3) ->
  (disconnect ;; connect) self
  = Some (r, with_socket s3 self,
          [Log (LogRecord DEBUG "Disconnecting from API" [] None);
           SocketDisconnect; SocketShutdown;
           Log (LogRecord DEBUG "Connecting to API" [] None);
           SocketConnect (connect_kwargs (_token self))])
  /\ _listeners (with_socket s3 self) = _listeners self.
Proof.
  intros Hd Hs Hc Hconn. split; [ | done].
  assert (Hdis : disconnect self
                 = Some (Returned tt, with_socket s2 self,
                         [Log (LogRecord DEBUG "Disconnecting from API" []
                                 None);
                          SocketDisconnect; SocketShutdown])).
  { unfold disconnect, bind, _LOGGER_debug, act, await_socket.
    rewrite Hd. simpl. by rewrite Hs. }
  unfold bind at 1. rewrite Hdis.
  by rewrite (connect_disconnected (with_socket s2 self) r s3 Hc Hconn).
Qed.

Lemma register_all_keeps_token_and_socket regs :
  forall self,
    _token (register_all regs self) = _token self
    /\ _socket (register_all regs self) = _socket self.
Proof.
  unfold register_all.
  induction regs as [ | [event cb] regs IH]; intros self; simpl; [done | ].
  destruct (IH (fst (add_event_listener event cb self))) as [-> ->].
  unfold add_event_listener.
  by destruct (defaultdict_getitem event (_listeners self)).
Qed.

Lemma token_init token session (data : option Data) socket :
  _token (fst (__init__ token session data socket)) = token.
Proof.
  unfold __init__, add_event_listener.
  by destruct (defaultdict_getitem _ _).
Qed.

(** X11: the token given to the constructor is the one [connect] sends,
    whatever was registered in between: the handshake goes to the fixed
    gateway, over websocket only, on the root namespace, with the two
    identifying headers and the token as authentication. *)
Theorem connect_sends_the_constructor_token token session
    (data : option Data) socket regs :
  connected
    (_socket (register_all regs (fst (__init__ token session data socket))))
  = false ->
  exists r self1,
    connect (register_all regs (fst (__init__ token session data socket)))
    = Some (r, self1,
            [Log (LogRecord DEBUG "Connecting to API" [] None);
             SocketConnect
               {| url := "https://gateway.onlycat.com";
                  transports := ["websocket"];
                  namespaces := "/";
                  headers := [("platform", "home-assistant");
                              ("device", "onlycat-hass")];
                  auth := [("token", token)] |}]).
Proof.
  intros Hc.
  set (self := register_all regs (fst (__init__ token session data socket)))
    in *.
  destruct (socket_connect (connect_kwargs (_token self)) (_socket self))
    as [r s1] eqn:Hs.
  exists r, (with_socket s1 self).
  rewrite (connect_disconnected self r s1 Hc Hs).
  unfold self.
  destruct (register_all_keeps_token_and_socket regs
              (fst (__init__ token session data socket))) as [-> _].
  by rewrite token_init.
Qed.

(** ** The keys of the registry *)

Lemma register_all_dom regs :
  forall self,
    dom (_listeners (register_all regs self))
    = dom (_listeners self) ∪ list_to_set regs.*1.
Proof.
  unfold register_all.
  induction regs as [ | [event cb] regs IH]; intros self; simpl.
  - set_solver.
  - rewrite IH, listeners_add_event_listener, dom_insert_L. set_solver.
Qed.

Lemma register_all_no_empty_list regs :
  forall self,
    (forall ev l, _listeners self !! ev = Some l -> l <> []) ->
    forall ev l,
      _listeners (register_all regs self) !! ev = Some l -> l <> [].
Proof.
  unfold register_all.
  induction regs as [ | [event cb] regs IH]; intros self Hinv; simpl;
    [done | ].
  apply IH. intros ev l. rewrite listeners_add_event_listener.
  destruct (decide (event = ev)) as [-> | Hne].
  - rewrite lookup_insert_eq. intros [= <-].
    by destruct (listeners_of self ev).
  - rewrite lookup_insert_ne by done. apply Hinv.
Qed.

(** X12: keys come from registrations.  After the constructor and any
    registrations the keys of the registry are "connect" and the events
    registered, and no key is bound to an empty list. *)
Theorem registry_keys_after_registrations token session
    (data : option Data) socket regs :
  dom (_listeners
         (register_all regs (fst (__init__ token session data socket))))
  = {["connect"]} ∪ list_to_set regs.*1
  /\ (forall ev l,
        _listeners
          (register_all regs (fst (__init__ token session data socket)))
        !! ev = Some l ->
        l <> []).
Proof.
  split.
  - by rewrite register_all_dom, listeners_init, dom_singleton_L.
  - apply register_all_no_empty_list. intros ev l.
    rewrite listeners_init. intros Hl.
    apply lookup_singleton_Some in Hl as [_ <-]. done.
Qed.

(** ** Routing *)

(** X14: events are routed by name.  On a client built by the constructor
    and a series of registrations, the dispatch of an event other than
    "connect" awaits the callbacks registered for that event, in the order
    of their registration, and no other: nothing when nothing was
    registered for it, and never a callback registered for another event
    only. *)
Theorem dispatch_reaches_the_callbacks_of_the_event token session
    (data : option Data) socket regs fuel event args :
  event <> "connect" ->
  Forall (keeps_listeners external event) (registered_for event regs) ->
  Forall (raises_only_Exception external) (registered_for event regs) ->
  length (registered_for event regs) < fuel ->
  exists self1 t,
    handle_event external fuel event args
      (register_all regs (fst (__init__ token session data socket)))
    = Some (Returned tt, self1, t)
    /\ invocations t = (fun h => (h, args)) <$> registered_for event regs
    /\ (forall cb a, (cb, a) ∈ invocations t -> (event, cb) ∈ regs).
Proof.
  intros Hne Hkeep Hexc Hfuel.
  set (self := register_all regs (fst (__init__ token session data socket))).
  assert (Hl : listeners_of self event = registered_for event regs).
  { unfold self. rewrite listeners_of_register_all.
    unfold listeners_of at 1. rewrite listeners_init.
    by rewrite lookup_singleton_ne. }
  destruct (handle_event_contained external fuel event args self)
    as (self1 & t & Hrun & Hinv & _); [by rewrite Hl .. | ].
  exists self1, (Log (received_record event args) :: t).
  split; [done | ].
  change (invocations (Log (received_record event args) :: t))
    with (invocations t).
  rewrite Hinv, Hl. split; [done | ].
  intros cb a Hin. apply list_elem_of_fmap in Hin as (h & [= -> ->] & Hin).
  unfold registered_for in Hin.
  apply list_elem_of_fmap in Hin as ([ev h'] & -> & Hin).
  apply list_elem_of_filter in Hin as [Hev Hin]. simpl in *. by subst ev.
Qed.

End Further.

(** ** Runs of the further properties *)

Section MoreMockFacts.

Import Mock.

Lemma mock_callables_append_only (event : string) (cb : callback) :
  appends_only callables event cb.
Proof.
  intros args self r self1 t.
  destruct cb as [ | [ | [ | [ | id]]]]; simpl.
  - destruct args; cbv -[prefix listeners_of]; by intros [= _ <- _].
  - by intros [= _ <- _].
  - by intros [= _ <- _].
  - by intros [= _ <- _].
  - intros [= _ <- _]. rewrite listeners_of_add_event_listener.
    destruct (decide ("ping" = event)); [by apply prefix_app_r | done].
Qed.

Lemma callable_0_always_returns (args : list value) :
  always_returns callables (External 0) args.
Proof. intros self. simpl. eauto. Qed.

Lemma callable_2_always_raises (args : list value) :
  always_raises callables (External 2) args CancelledError.
Proof. intros self. simpl. eauto. Qed.

End MoreMockFacts.

Lemma handle_event_calls_no_transport_operation_witness :
  Forall (fun a => is_socket_action a = false)
    (Mock.trace_after
       (handle_event Mock.callables 3 "ping" [VStr "payload"]
          Mock.cancelled_client))
  /\ handshakes
       (Mock.trace_after
          (handle_event Mock.callables 3 "ping" [VStr "payload"]
             Mock.cancelled_client)) = 0
  /\ head
       (Mock.trace_after
          (handle_event Mock.callables 3 "ping" [VStr "payload"]
             Mock.cancelled_client))
     = Some (Log (received_record "ping" [VStr "payload"])).
Proof.
  apply (handle_event_calls_no_transport_operation Mock.callables 3 "ping"
           [VStr "payload"] Mock.cancelled_client
           (Raised Mock.CancelledError)
           (Mock.state_after
              (handle_event Mock.callables 3 "ping" [VStr "payload"]
                 Mock.cancelled_client) Mock.cancelled_client)).
  vm_compute. reflexivity.
Defined.

Lemma handle_event_awaits_listeners_added_meanwhile_witness :
  listeners_of Mock.growing_client "ping"
  `prefix_of`
  listeners_of
    (Mock.state_after
       (handle_event Mock.callables 3 "ping" [] Mock.growing_client)
       Mock.growing_client) "ping"
  /\ invocations
       (Mock.trace_after
          (handle_event Mock.callables 3 "ping" [] Mock.growing_client))
     = [(External 3, []); (External 0, [])].
Proof.
  apply (handle_event_awaits_listeners_added_meanwhile Mock.callables 3
           "ping" [] Mock.growing_client
           (Mock.state_after
              (handle_event Mock.callables 3 "ping" [] Mock.growing_client)
              Mock.growing_client)
           (Mock.trace_after
              (handle_event Mock.callables 3 "ping" []
                 Mock.growing_client))).
  - apply mock_callables_append_only.
  - vm_compute. reflexivity.
Defined.

Lemma handle_event_stops_at_BaseException_witness :
  exists self1 t,
    handle_event Mock.callables 3 "ping" [VStr "payload"]
      Mock.cancelled_client
    = Some (Raised Mock.CancelledError, self1, t)
    /\ invocations t = [(External 2, [VStr "payload"])].
Proof.
  apply (handle_event_stops_at_BaseException Mock.callables 3 "ping"
           [VStr "payload"] Mock.cancelled_client 0 (External 2)
           Mock.CancelledError).
  - repeat constructor; apply callable_keeps_listeners; lia.
  - constructor.
  - vm_compute. lia.
  - reflexivity.
  - apply callable_2_always_raises.
  - reflexivity.
Defined.

Lemma connect_event_with_arguments_witness :
  exists self1 t,
    handle_event Mock.callables 3 "connect" [VInt 1]
      (fst (add_event_listener "connect" (External 0)
              (Mock.new_client Mock.idle)))
    = Some (Returned tt, self1, t)
    /\ invocations t
       = [(on_connected_method, [VInt 1]); (External 0, [VInt 1])]
    /\ Log (error_record "connect" [VInt 1]
              (Raise TypeError "on_connected() takes 1 positional argument"))
       ∈ t.
Proof.
  apply (connect_event_with_arguments Mock.callables 3 (VInt 1) []
           (fst (add_event_listener "connect" (External 0)
                   (Mock.new_client Mock.idle)))
           [External 0]).
  - reflexivity.
  - repeat constructor; apply callable_keeps_listeners; lia.
  - repeat constructor; apply callable_raises_only_Exception; lia.
  - simpl. lia.
Defined.

Lemma handle_event_logs_no_error_without_a_raise_witness :
  exists self1 t,
    handle_event Mock.callables 3 "ping" [VStr "payload"]
      (register_all [("ping", External 0); ("ping", External 0)]
         (Mock.new_client Mock.idle))
    = Some (Returned tt, self1, t)
    /\ (forall rec, Log rec ∈ t -> log_level rec = DEBUG)
    /\ invocations t
       = [(External 0, [VStr "payload"]); (External 0, [VStr "payload"])].
Proof.
  apply (handle_event_logs_no_error_without_a_raise Mock.callables 3 "ping"
           [VStr "payload"]
           (register_all [("ping", External 0); ("ping", External 0)]
              (Mock.new_client Mock.idle))).
  - repeat constructor; apply callable_keeps_listeners; lia.
  - repeat constructor; apply callable_0_always_returns.
  - vm_compute. lia.
Defined.

Lemma handle_event_twice_witness :
  exists self2 t,
    (handle_event Mock.callables 3 "ping" [VInt 1] ;;
     handle_event Mock.callables 3 "ping" [VInt 2]) Mock.ping_client
    = Some (Returned tt, self2, t)
    /\ invocations t
       = [(External 1, [VInt 1]); (External 0, [VInt 1])]
         ++ [(External 1, [VInt 2]); (External 0, [VInt 2])]
    /\ listeners_of self2 "ping" = listeners_of Mock.ping_client "ping".
Proof.
  apply (handle_event_twice Mock.callables 3 "ping" [VInt 1] [VInt 2]
           Mock.ping_client).
  - repeat constructor; apply callable_keeps_listeners; lia.
  - repeat constructor; apply callable_raises_only_Exception; lia.
  - vm_compute. lia.
Defined.

Lemma listener_registered_n_times_witness :
  listeners_of
    (register_all (replicate 2 ("ping", External 1)) Mock.ping_client)
    "ping"
  = [External 1; External 0] ++ [External 1; External 1]
  /\ exists self1 t,
       handle_event Mock.callables 5 "ping" [VStr "payload"]
         (register_all (replicate 2 ("ping", External 1)) Mock.ping_client)
       = Some (Returned tt, self1, t)
       /\ invocations t
          = [(External 1, [VStr "payload"]); (External 0, [VStr "payload"])]
            ++ [(External 1, [VStr "payload"]);
                (External 1, [VStr "payload"])].
Proof.
  apply (listener_registered_n_times Mock.callables 5 "ping"
           [VStr "payload"] Mock.ping_client (External 1) 2).
  - repeat constructor; apply callable_keeps_listeners; lia.
  - repeat constructor; apply callable_raises_only_Exception; lia.
  - apply callable_keeps_listeners; lia.
  - apply callable_raises_only_Exception; lia.
  - vm_compute. lia.
Defined.

Lemma connect_after_disconnect_reuses_the_transport_witness :
  (disconnect ;; connect)
    (Mock.new_client (Mock.replying VNone))
  = Some (Returned tt,
          with_socket
            (Mock.set_connected true (socket_on "*" (Mock.replying VNone)))
            (Mock.new_client (Mock.replying VNone)),
          [Log (LogRecord DEBUG "Disconnecting from API" [] None);
           SocketDisconnect; SocketShutdown;
           Log (LogRecord DEBUG "Connecting to API" [] None);
           SocketConnect (connect_kwargs "token")])
  /\ _listeners
       (with_socket
          (Mock.set_connected true (socket_on "*" (Mock.replying VNone)))
          (Mock.new_client (Mock.replying VNone)))
     = _listeners (Mock.new_client (Mock.replying VNone)).
Proof.
  apply (connect_after_disconnect_reuses_the_transport
           (Mock.new_client (Mock.replying VNone))
           (Mock.set_connected false (socket_on "*" (Mock.replying VNone)))
           (Mock.set_connected false (socket_on "*" (Mock.replying VNone)))
           (Returned tt)
           (Mock.set_connected true (socket_on "*" (Mock.replying VNone)))).
  - reflexivity.
  - reflexivity.
  - reflexivity.
  - reflexivity.
Defined.

Lemma connect_sends_the_constructor_token_witness :
  exists r self1,
    connect
      (register_all [("ping", External 0)]
         (fst (__init__ "secret" tt (None : option unit) (Some Mock.idle))))
    = Some (r, self1,
            [Log (LogRecord DEBUG "Connecting to API" [] None);
             SocketConnect
               {| url := "https://gateway.onlycat.com";
                  transports := ["websocket"];
                  namespaces := "/";
                  headers := [("platform", "home-assistant");
                              ("device", "onlycat-hass")];
                  auth := [("token", "secret")] |}]).
Proof.
  apply (connect_sends_the_constructor_token "secret" tt None
           (Some Mock.idle) [("ping", External 0)]).
  reflexivity.
Defined.

Lemma dispatch_reaches_the_callbacks_of_the_event_witness :
  exists self1 t,
    handle_event Mock.callables 3 "ping" [VStr "payload"]
      (register_all
         [("ping", External 1); ("pong", External 2); ("ping", External 0)]
         (fst (__init__ "token" tt (None : option unit) (Some Mock.idle))))
    = Some (Returned tt, self1, t)
    /\ invocations t
       = [(External 1, [VStr "payload"]); (External 0, [VStr "payload"])]
    /\ (forall cb a,
          (cb, a) ∈ invocations t ->
          ("ping", cb)
          ∈ [("ping", External 1); ("pong", External 2);
             ("ping", External 0)]).
Proof.
  apply (dispatch_reaches_the_callbacks_of_the_event Mock.callables "token"
           tt None (Some Mock.idle)
           [("ping", External 1); ("pong", External 2); ("ping", External 0)]
           3 "ping" [VStr "payload"]).
  - discriminate.
  - repeat constructor; apply callable_keeps_listeners; lia.
  - repeat constructor; apply callable_raises_only_Exception; lia.
  - vm_compute. lia.
Defined.
